(** * target.js: the Target base class and its StyleManager

    A shallow embedding of [core/Target.js] and [core/StyleManager.js]
    (with the [FluidContainer] and [Error] components built on them), and
    the properties of the lifecycle, the style registry and the template
    helpers.

    Of [Target], the methods [log], [initialize] and [getNestedTargets]
    are not embedded: they log, walk the parsed content of the container
    or build elements to read their markup, and none of them assigns a
    field of the instance other than entries of [props].

    Conventions of the embedding.
    - A JavaScript string is a [string]: a sequence of code units below 256.
    - A JavaScript number is the exact decimal value of its literal
      ([JSNumber]); rounding to binary64 is not represented.
    - An exception is the [Throw] outcome; [OutOfFuel] marks a run whose
      nesting of re-entrant calls exceeded the given bound.
    - The console is not represented: no [console.*] call changes the state
      of the program or throws. *)

From Stdlib Require Import String Ascii List ZArith NArith Bool Arith Lia.
From Stdlib Require Import DecimalString.
Import ListNotations.
Open Scope string_scope.

(* ================================================================== *)
(** ** Outcomes of a call *)

Inductive Exn : Type :=
| TypeError (msg : string)
| SyntaxError (msg : string).

Inductive Outcome (A : Type) : Type :=
| Ret (a : A)
| Throw (e : Exn)
| OutOfFuel.

Arguments Ret {A} a.
Arguments Throw {A} e.
Arguments OutOfFuel {A}.

Definition obind {A B} (x : Outcome A) (f : A -> Outcome B) : Outcome B :=
  match x with
  | Ret a => f a
  | Throw e => Throw e
  | OutOfFuel => OutOfFuel
  end.

Definition omap {A B} (f : A -> B) (x : Outcome A) : Outcome B :=
  obind x (fun a => Ret (f a)).

Declare Scope outcome_scope.
Delimit Scope outcome_scope with outcome.
Notation "x <- c1 ;; c2" := (obind c1 (fun x => c2))
  (at level 61, c1 at next level, right associativity) : outcome_scope.

(* ================================================================== *)
(** ** Strings and character classes *)

Module Str.

(** The double quote, U+0022. *)
Definition dq : ascii := "034"%char.
Definition DQ : string := String dq "".

Definition code (c : ascii) : nat := nat_of_ascii c.

Definition in_range (lo hi : nat) (c : ascii) : bool :=
  ((lo <=? code c) && (code c <=? hi))%nat.

Definition is_lower (c : ascii) : bool := in_range 97 122 c.
Definition is_upper (c : ascii) : bool := in_range 65 90 c.
Definition is_digit (c : ascii) : bool := in_range 48 57 c.

(** [[a-zA-Z]] *)
Definition is_alpha (c : ascii) : bool := is_lower c || is_upper c.

(** [\w], that is [[A-Za-z0-9_]] *)
Definition is_word (c : ascii) : bool :=
  is_alpha c || is_digit c || Ascii.eqb c "_".

(** [\s] and the white space that [trim] and [Number] strip, among the
    code units below 256: TAB, LF, VT, FF, CR, SPACE and NBSP. *)
Definition is_space (c : ascii) : bool :=
  in_range 9 13 c || (code c =? 32)%nat || (code c =? 160)%nat.

Fixpoint all (p : ascii -> bool) (s : string) : bool :=
  match s with
  | "" => true
  | String c s' => p c && all p s'
  end.

Fixpoint contains (c : ascii) (s : string) : bool :=
  match s with
  | "" => false
  | String d s' => Ascii.eqb c d || contains c s'
  end.

Fixpoint drop (n : nat) (s : string) : string :=
  match n, s with
  | 0, _ => s
  | S k, "" => ""
  | S k, String _ s' => drop k s'
  end.

Fixpoint take (n : nat) (s : string) : string :=
  match n, s with
  | 0, _ => ""
  | S k, "" => ""
  | S k, String c s' => String c (take k s')
  end.

(** [s.substring(i, j)] for [0 <= i <= j]. *)
Definition substring (i j : nat) (s : string) : string :=
  take (j - i) (drop i s).

(** The longest prefix whose characters satisfy [p], and what follows. *)
Fixpoint span (p : ascii -> bool) (s : string) : string * string :=
  match s with
  | "" => ("", "")
  | String c s' =>
      if p c then let '(a, b) := span p s' in (String c a, b)
      else ("", s)
  end.

Fixpoint dropWhile (p : ascii -> bool) (s : string) : string :=
  match s with
  | "" => ""
  | String c s' => if p c then dropWhile p s' else s
  end.

Fixpoint rev_acc (s acc : string) : string :=
  match s with
  | "" => acc
  | String c s' => rev_acc s' (String c acc)
  end.

Definition rev (s : string) : string := rev_acc s "".

(** [s.trim()] *)
Definition trim (s : string) : string :=
  rev (dropWhile is_space (rev (dropWhile is_space s))).

(** [s.startsWith(p)] *)
Fixpoint startsWith (p s : string) : bool :=
  match p, s with
  | "", _ => true
  | String a p', String b s' => Ascii.eqb a b && startsWith p' s'
  | String _ _, "" => false
  end.

(** [s.endsWith(p)] *)
Definition endsWith (p s : string) : bool := startsWith (rev p) (rev s).

(** [s.split(sep)] for a one-character separator. *)
Fixpoint split (sep : ascii) (s : string) : list string :=
  match s with
  | "" => [""]
  | String c s' =>
      if Ascii.eqb c sep then "" :: split sep s'
      else match split sep s' with
           | [] => [String c ""]
           | w :: ws => String c w :: ws
           end
  end.

(** [l.join(sep)] *)
Fixpoint join (sep : string) (l : list string) : string :=
  match l with
  | [] => ""
  | [w] => w
  | w :: ws => w ++ sep ++ join sep ws
  end.

Fixpoint repeat (c : ascii) (n : nat) : string :=
  match n with
  | 0 => ""
  | S k => String c (repeat c k)
  end.

End Str.

(* ================================================================== *)
(** ** JavaScript values *)

Module JS.
Import Str.

(** A number: the sign, and the value [m * 10^e] with [m] free of
    trailing zeros ([m = 0] goes with [e = 0]). *)
Inductive JSNumber : Type :=
| NaN
| Infinity (neg : bool)
| Finite (neg : bool) (m : N) (e : Z).

(** Values.  [JFun] is a built-in function object, named after the
    property of [Object.prototype] that holds it.  An object is its own
    properties, in creation order, and its prototype. *)
#[local] Unset Elimination Schemes.
Inductive JSValue : Type :=
| JUndefined
| JNull
| JBool (b : bool)
| JNum (n : JSNumber)
| JStr (s : string)
| JFun (name : string)
| JArr (items : list JSValue)
| JObj (own : list (string * JSValue)) (proto : Proto)
with Proto : Type :=
| ObjectPrototype
| NullPrototype
| ObjProto (own : list (string * JSValue)) (proto : Proto).
#[local] Set Elimination Schemes.

Definition Props : Type := list (string * JSValue).

Record JSObject : Type := mkObject { own : Props; proto : Proto }.

Definition JObject (o : JSObject) : JSValue := JObj (own o) (proto o).

(** The object literal [{ k1: v1, ... }]. *)
Definition literal (ps : Props) : JSObject :=
  {| own := ps; proto := ObjectPrototype |}.

Definition empty_object : JSObject := literal [].

Fixpoint lookup {A} (k : string) (ps : list (string * A)) : option A :=
  match ps with
  | [] => None
  | (k', v) :: ps' => if String.eqb k k' then Some v else lookup k ps'
  end.

(** Defining an own property: an existing key keeps its place. *)
Fixpoint define {A} (k : string) (v : A) (ps : list (string * A))
  : list (string * A) :=
  match ps with
  | [] => [(k, v)]
  | (k', v') :: ps' =>
      if String.eqb k k' then (k, v) :: ps' else (k', v') :: define k v ps'
  end.

Fixpoint remove {A} (k : string) (ps : list (string * A))
  : list (string * A) :=
  match ps with
  | [] => []
  | (k', v') :: ps' =>
      if String.eqb k k' then ps' else (k', v') :: remove k ps'
  end.

Definition has {A} (k : string) (ps : list (string * A)) : bool :=
  match lookup k ps with Some _ => true | None => false end.

(** The data properties of [Object.prototype]; [__proto__] is its one
    accessor. *)
Definition object_prototype_methods : list string :=
  [ "constructor"; "__defineGetter__"; "__defineSetter__"; "hasOwnProperty";
    "__lookupGetter__"; "__lookupSetter__"; "isPrototypeOf";
    "propertyIsEnumerable"; "toString"; "valueOf"; "toLocaleString" ].

Definition mem (k : string) (l : list string) : bool :=
  existsb (String.eqb k) l.

Definition proto_value (p : Proto) : JSValue :=
  match p with
  | ObjectPrototype =>
      JObj (map (fun k => (k, JFun k)) object_prototype_methods) NullPrototype
  | NullPrototype => JNull
  | ObjProto ps q => JObj ps q
  end.

(** [receiver] is the prototype of the object the read started from: what
    the [__proto__] getter of [Object.prototype] returns. *)
Fixpoint get_from (receiver : Proto) (p : Proto) (k : string) : JSValue :=
  match p with
  | NullPrototype => JUndefined
  | ObjectPrototype =>
      if mem k object_prototype_methods then JFun k
      else if String.eqb k "__proto__" then proto_value receiver
      else JUndefined
  | ObjProto ps q =>
      match lookup k ps with
      | Some v => v
      | None => get_from receiver q k
      end
  end.

(** [o[k]] *)
Definition get (o : JSObject) (k : string) : JSValue :=
  match lookup k (own o) with
  | Some v => v
  | None => get_from (proto o) (proto o) k
  end.

Fixpoint reaches_object_prototype (p : Proto) : bool :=
  match p with
  | ObjectPrototype => true
  | NullPrototype => false
  | ObjProto _ q => reaches_object_prototype q
  end.

Fixpoint shadowed (k : string) (p : Proto) : bool :=
  match p with
  | ObjProto ps q => has k ps || shadowed k q
  | _ => false
  end.

(** [o[k] = v].  Through the [__proto__] setter an object or [null]
    becomes the prototype and a primitive value is dropped (an array or
    a function as prototype is not represented: the object stays as it
    is); every other inherited property here is a writable data
    property. *)
Definition set (o : JSObject) (k : string) (v : JSValue) : JSObject :=
  if has k (own o) then {| own := define k v (own o); proto := proto o |}
  else if String.eqb k "__proto__" && reaches_object_prototype (proto o)
          && negb (shadowed k (proto o))
  then match v with
       | JObj ps q => {| own := own o; proto := ObjProto ps q |}
       | JNull => {| own := own o; proto := NullPrototype |}
       | _ => o
       end
  else {| own := define k v (own o); proto := proto o |}.

(** [typeof v] *)
Definition typeof (v : JSValue) : string :=
  match v with
  | JUndefined => "undefined"
  | JNull => "object"
  | JBool _ => "boolean"
  | JNum _ => "number"
  | JStr _ => "string"
  | JFun _ => "function"
  | JArr _ => "object"
  | JObj _ _ => "object"
  end.

Definition is_zero_or_nan (n : JSNumber) : bool :=
  match n with
  | NaN => true
  | Infinity _ => false
  | Finite _ m _ => N.eqb m 0
  end.

(** Truthiness, as [if (v)] and [!v] test it. *)
Definition truthy (v : JSValue) : bool :=
  match v with
  | JUndefined | JNull => false
  | JBool b => b
  | JNum n => negb (is_zero_or_nan n)
  | JStr s => negb (String.eqb s "")
  | _ => true
  end.

Fixpoint index_entries (i : nat) (l : list JSValue) : Props :=
  match l with
  | [] => []
  | v :: l' =>
      (NilEmpty.string_of_uint (Nat.to_uint i), v) :: index_entries (S i) l'
  end.

Fixpoint chars (s : string) : list JSValue :=
  match s with
  | "" => []
  | String c s' => JStr (String c "") :: chars s'
  end.

(** The own enumerable properties that a spread [...v] copies. *)
Definition spreadable (v : JSValue) : Props :=
  match v with
  | JObj ps _ => ps
  | JArr l => index_entries 0 l
  | JStr s => index_entries 0 (chars s)
  | _ => []
  end.

Definition define_all (src dst : Props) : Props :=
  fold_left (fun acc kv => define (fst kv) (snd kv) acc) src dst.

(** [{ ...a, ...b }] *)
Definition spread2 (a b : JSValue) : JSObject :=
  literal (define_all (spreadable b) (define_all (spreadable a) [])).


(** *** Numbers from strings and back *)

Definition hex_value (c : ascii) : option N :=
  if is_digit c then Some (N.of_nat (code c - 48))
  else if in_range 97 102 c then Some (N.of_nat (code c - 87))
  else if in_range 65 70 c then Some (N.of_nat (code c - 55))
  else None.

(** The value of a string of digits in the given radix, if every
    character is a digit of that radix. *)
Fixpoint digits_in (radix : N) (acc : N) (s : string) : option N :=
  match s with
  | "" => Some acc
  | String c s' =>
      match hex_value c with
      | Some d => if N.ltb d radix then digits_in radix (acc * radix + d) s'
                  else None
      | None => None
      end
  end.

Definition decimal_value (s : string) : N :=
  match digits_in 10 0 s with Some n => n | None => 0%N end.

Fixpoint strip_zeros (fuel : nat) (m : N) (e : Z) : N * Z :=
  match fuel with
  | 0 => (m, e)
  | S k => if N.eqb (m mod 10) 0 then strip_zeros k (m / 10)%N (e + 1)%Z
           else (m, e)
  end.

Definition finite (neg : bool) (m : N) (e : Z) : JSNumber :=
  if N.eqb m 0 then Finite neg 0 0
  else let '(m', e') := strip_zeros (N.to_nat (N.size m)) m e in
       Finite neg m' e'.

Definition of_Z (z : Z) : JSNumber := finite (Z.ltb z 0) (Z.abs_N z) 0.

(** [ExponentPart], or nothing: the exponent, when the whole of [s] is
    one. *)
Definition exponent_part (s : string) : option Z :=
  match s with
  | "" => Some 0%Z
  | String c s' =>
      if Ascii.eqb c "e" || Ascii.eqb c "E" then
        let '(neg, ds) :=
          match s' with
          | String "-" d => (true, d)
          | String "+" d => (false, d)
          | _ => (false, s')
          end in
        if negb (String.eqb ds "") && all is_digit ds
        then Some (if neg then (- Z.of_N (decimal_value ds))%Z
                   else Z.of_N (decimal_value ds))
        else None
      else None
  end.

(** [StrUnsignedDecimalLiteral] *)
Definition unsigned_decimal (neg : bool) (s : string) : JSNumber :=
  if String.eqb s "Infinity" then Infinity neg
  else
    let '(int_digits, r1) := span is_digit s in
    let '(frac_digits, r2) :=
      match r1 with
      | String "." r => span is_digit r
      | _ => ("", r1)
      end in
    if String.eqb int_digits "" && String.eqb frac_digits "" then NaN
    else
      match exponent_part r2 with
      | Some e =>
          finite neg (decimal_value (int_digits ++ frac_digits))
                 (e - Z.of_nat (String.length frac_digits))
      | None => NaN
      end.

(** [NonDecimalIntegerLiteral]: [0x], [0o] and [0b] literals. *)
Definition non_decimal (s : string) : option JSNumber :=
  match s with
  | String "0" (String p ds) =>
      let radix :=
        if Ascii.eqb p "x" || Ascii.eqb p "X" then Some 16%N
        else if Ascii.eqb p "o" || Ascii.eqb p "O" then Some 8%N
        else if Ascii.eqb p "b" || Ascii.eqb p "B" then Some 2%N
        else None in
      match radix with
      | Some r =>
          if String.eqb ds "" then Some NaN
          else match digits_in r 0 ds with
               | Some n => Some (finite false n 0)
               | None => Some NaN
               end
      | None => None
      end
  | _ => None
  end.

(** [Number(s)] of a string, the abstract operation StringToNumber: white
    space is stripped at both ends and the empty string is [0]. *)
Definition StringToNumber (s : string) : JSNumber :=
  let t := trim s in
  if String.eqb t "" then Finite false 0 0
  else match non_decimal t with
       | Some n => n
       | None =>
           match t with
           | String "-" u => unsigned_decimal true u
           | String "+" u => unsigned_decimal false u
           | _ => unsigned_decimal false t
           end
       end.

Definition number_isNaN (n : JSNumber) : bool :=
  match n with NaN => true | _ => false end.

Definition digits_of (m : N) : string :=
  NilEmpty.string_of_uint (N.to_uint m).

Definition Z_digits (z : Z) : string :=
  NilEmpty.string_of_uint (N.to_uint (Z.abs_N z)).

(** [n.toString()], Number::toString in radix 10. *)
Definition Number_toString (x : JSNumber) : string :=
  match x with
  | NaN => "NaN"
  | Infinity neg => if neg then "-Infinity" else "Infinity"
  | Finite neg m e =>
      if N.eqb m 0 then "0"
      else
        let s := digits_of m in
        let k := Z.of_nat (String.length s) in
        let n := (k + e)%Z in
        let body :=
          if ((k <=? n) && (n <=? 21))%Z then
            s ++ repeat "0" (Z.to_nat (n - k))
          else if ((0 <? n) && (n <=? 21))%Z then
            take (Z.to_nat n) s ++ "." ++ drop (Z.to_nat n) s
          else if ((-6 <? n) && (n <=? 0))%Z then
            "0." ++ repeat "0" (Z.to_nat (- n)) ++ s
          else
            let ex := (n - 1)%Z in
            let sign := if (ex <? 0)%Z then "-" else "+" in
            match s with
            | String d "" => String d "" ++ "e" ++ sign ++ Z_digits ex
            | String d rest =>
                String d "" ++ "." ++ rest ++ "e" ++ sign ++ Z_digits ex
            | "" => ""
            end in
        if neg then "-" ++ body else body
  end.

End JS.

(* ================================================================== *)
(** ** Regular-expression replacement *)

Module Regex.
Import Str.

(** [s.replace(/re/g, f)].  [matcher s] tells whether the expression
    matches at the start of [s]: the replacement and the length of the
    match, which is never zero for the expressions of this program.  The
    scan copies a character where nothing matches and resumes behind a
    match; [skip] counts the characters of a match still to pass. *)
Fixpoint replace_from {M : Type} (matcher : string -> option (M * nat))
    (emit : M -> Outcome string) (skip : nat) (s : string)
  : Outcome string :=
  match s with
  | "" => Ret ""
  | String c s' =>
      match skip with
      | S k => replace_from matcher emit k s'
      | 0 =>
          match matcher s with
          | Some (m, len) =>
              obind (emit m) (fun out =>
              obind (replace_from matcher emit (len - 1) s') (fun rest =>
              Ret (out ++ rest)))
          | None =>
              obind (replace_from matcher emit 0 s') (fun rest =>
              Ret (String c rest))
          end
      end
  end.

Definition replace {M : Type} (matcher : string -> option (M * nat))
    (emit : M -> Outcome string) (s : string) : Outcome string :=
  replace_from matcher emit 0 s.

(** The same scan for a replacement that cannot throw. *)
Fixpoint replace_pure_from (matcher : string -> option (string * nat))
    (skip : nat) (s : string) : string :=
  match s with
  | "" => ""
  | String c s' =>
      match skip with
      | S k => replace_pure_from matcher k s'
      | 0 =>
          match matcher s with
          | Some (out, len) => out ++ replace_pure_from matcher (len - 1) s'
          | None => String c (replace_pure_from matcher 0 s')
          end
      end
  end.

Definition replace_pure (matcher : string -> option (string * nat))
    (s : string) : string :=
  replace_pure_from matcher 0 s.

(** Successive [re.exec(s)] of a global expression until [null]: every
    match, left to right. *)
Fixpoint exec_all_from {M : Type} (matcher : string -> option (M * nat))
    (skip : nat) (s : string) : list M :=
  match s with
  | "" => []
  | String c s' =>
      match skip with
      | S k => exec_all_from matcher k s'
      | 0 =>
          match matcher s with
          | Some (m, len) => m :: exec_all_from matcher (len - 1) s'
          | None => exec_all_from matcher 0 s'
          end
      end
  end.

Definition exec_all {M : Type} (matcher : string -> option (M * nat))
    (s : string) : list M :=
  exec_all_from matcher 0 s.

(** The text before the first [c], when there is one. *)
Fixpoint before (c : ascii) (s : string) : option string :=
  match s with
  | "" => None
  | String d s' =>
      if Ascii.eqb d c then Some ""
      else match before c s' with
           | Some b => Some (String d b)
           | None => None
           end
  end.

(** [tagRegex] at the start of [s]: a [<], a [/] or none, one or more
    letters (the tag name), any run of characters other than [>] (the
    attributes) and a [>]. *)
Record TagMatch : Type := mkTag {
  fullTag : string;
  closing : bool;      (* fullTag.startsWith("</") *)
  tagName : string;
  attrs : string
}.

Definition match_tag (s : string) : option (TagMatch * nat) :=
  match s with
  | String "<" r =>
      let '(slash, r1) :=
        match r with
        | String "/" r' => (true, r')
        | _ => (false, r)
        end in
      let '(name, r2) := span is_alpha r1 in
      if String.eqb name "" then None
      else match before ">" r2 with
           | Some a =>
               let len := 1 + (if slash then 1 else 0)
                          + String.length name + String.length a + 1 in
               Some ({| fullTag := take len s; closing := slash;
                        tagName := name; attrs := a |}, len)
           | None => None
           end
  | _ => None
  end.

(** [attrRegex] at the start of [s]: one or more letters (the name), [=],
    and between two double quotes any run of other characters (the
    value). *)
Definition match_attr (s : string) : option ((string * string) * nat) :=
  let '(name, r) := span is_alpha s in
  if String.eqb name "" then None
  else match r with
       | String "=" (String q r') =>
           if Ascii.eqb q dq then
             match before dq r' with
             | Some v =>
                 Some ((name, v),
                       String.length name + 2 + String.length v + 1)
             | None => None
             end
           else None
       | _ => None
       end.

(** The expression of [parseHTML] at the start of [s]: two [{], one or
    more word characters (the key) and two [}]. *)
Definition match_placeholder (s : string) : option (string * nat) :=
  match s with
  | String "{" (String "{" r) =>
      let '(key, r1) := span is_word r in
      if String.eqb key "" then None
      else match r1 with
           | String "}" (String "}" _) => Some (key, String.length key + 4)
           | _ => None
           end
  | _ => None
  end.

(** The expression of [scopeCSS] at the start of [s]: [class=] and,
    between two double quotes, any run of other characters (the class
    names). *)
Definition match_class (s : string) : option (string * nat) :=
  if startsWith ("class=" ++ DQ) s then
    match before dq (drop 7 s) with
    | Some names => Some (names, 7 + String.length names + 1)
    | None => None
    end
  else None.

Definition is_punct (c : ascii) : bool :=
  Ascii.eqb c ":" || Ascii.eqb c ";" || Ascii.eqb c "," || Ascii.eqb c "{".

(** The expression of the style rules at the start of [s]: white space
    or none, one of [: ; , {], white space or none; its replacement [$1]
    is the punctuation alone. *)
Definition match_punct (s : string) : option (string * nat) :=
  let '(lead, r) := span is_space s in
  match r with
  | String c r' =>
      if is_punct c then
        let '(trail, _) := span is_space r' in
        Some (String c "", String.length lead + 1 + String.length trail)
      else None
  | "" => None
  end.

(** The five characters that full escaping replaces, each with its
    entity: ampersand, angle brackets, double quote and apostrophe. *)
Definition entity (c : ascii) : option string :=
  if Ascii.eqb c "&" then Some "&amp;"
  else if Ascii.eqb c "<" then Some "&lt;"
  else if Ascii.eqb c ">" then Some "&gt;"
  else if Ascii.eqb c dq then Some "&quot;"
  else if Ascii.eqb c "'" then Some "&#39;"
  else None.

Definition match_entity (s : string) : option (string * nat) :=
  match s with
  | String c _ => match entity c with Some e => Some (e, 1) | None => None end
  | "" => None
  end.

Definition match_char (c : ascii) (out : string) (s : string)
  : option (string * nat) :=
  match s with
  | String d _ => if Ascii.eqb d c then Some (out, 1) else None
  | "" => None
  end.

End Regex.

(* ================================================================== *)
(** ** Calls that change a state *)

(** A call on a state [S]: its outcome and the state it leaves.  A throw
    keeps the mutations made before it. *)
Definition M (S A : Type) : Type := S -> Outcome A * S.

Definition ret {S A} (a : A) : M S A := fun s => (Ret a, s).

Definition throw {S A} (e : Exn) : M S A := fun s => (Throw e, s).

Definition bind {S A B} (m : M S A) (f : A -> M S B) : M S B :=
  fun s =>
    match m s with
    | (Ret a, s') => f a s'
    | (Throw e, s') => (Throw e, s')
    | (OutOfFuel, s') => (OutOfFuel, s')
    end.

Definition gets {S A} (f : S -> A) : M S A := fun s => (Ret (f s), s).

Definition modify {S} (f : S -> S) : M S unit := fun s => (Ret tt, f s).

Definition lift_outcome {S A} (x : Outcome A) : M S A := fun s => (x, s).

Definition when {S} (b : bool) (m : M S unit) : M S unit :=
  if b then m else ret tt.

Fixpoint for_each {S A} (l : list A) (f : A -> M S unit) : M S unit :=
  match l with
  | [] => ret tt
  | x :: l' => bind (f x) (fun _ => for_each l' f)
  end.

Declare Scope js_scope.
Delimit Scope js_scope with js.
Notation "x <- c1 ;; c2" := (bind c1 (fun x => c2))
  (at level 61, c1 at next level, right associativity) : js_scope.
Notation "c1 ;; c2" := (bind c1 (fun _ => c2))
  (at level 61, right associativity) : js_scope.

(* ================================================================== *)
(** ** The document *)

Module DOM.
Import Str.

(** An element of the document head, or one created and not yet
    appended. *)
Record Node : Type := mkNode {
  node_id : nat;
  node_tag : string;
  node_attrs : list (string * string);
  node_inner : string
}.

(** A container element of the body: its attributes, and its content as
    the markup last written to it. *)
Record Element : Type := mkElement {
  el_attrs : list (string * string);
  el_inner : string
}.

(** A request handed to the HTTP collaborator and not yet answered. *)
Record Request : Type := mkRequest {
  req_url : string;
  req_endpoint : JS.JSValue
}.

Record World : Type := mkWorld {
  head : list Node;            (* the children of document.head, in order *)
  fresh : nat;                 (* identity of the next created element *)
  body : list (nat * Element); (* the container elements, by identity *)
  title : string;              (* document.title *)
  requests : list Request
}.

(** What the DOM holds: the part of the world a mutation of the document
    shows in. *)
Definition dom (w : World) : list Node * list (nat * Element) * string :=
  (head w, body w, title w).

Definition set_head (h : list Node) (w : World) : World :=
  {| head := h; fresh := fresh w; body := body w; title := title w;
     requests := requests w |}.

Definition set_body (b : list (nat * Element)) (w : World) : World :=
  {| head := head w; fresh := fresh w; body := b; title := title w;
     requests := requests w |}.

Definition set_title (t : string) (w : World) : World :=
  {| head := head w; fresh := fresh w; body := body w; title := t;
     requests := requests w |}.

Definition add_request (r : Request) (w : World) : World :=
  {| head := head w; fresh := fresh w; body := body w; title := title w;
     requests := requests w ++ [r] |}.

(** [document.createElement(tag)] *)
Definition createElement (tag : string) (w : World) : Node * World :=
  ({| node_id := fresh w; node_tag := tag; node_attrs := [];
      node_inner := "" |},
   {| head := head w; fresh := S (fresh w); body := body w;
      title := title w; requests := requests w |}).

(** [node.setAttribute(name, value)] *)
Definition setAttribute (name value : string) (n : Node) : Node :=
  {| node_id := node_id n; node_tag := node_tag n;
     node_attrs := JS.define name value (node_attrs n);
     node_inner := node_inner n |}.

(** [node.getAttribute(name)], [None] for [null]. *)
Definition getAttribute (name : string) (attrs : list (string * string))
  : option string :=
  JS.lookup name attrs.

(** [document.head.appendChild(node)] of a node not yet in the head. *)
Definition appendChild (n : Node) (w : World) : World :=
  set_head (head w ++ [n]) w.

(** [document.head.removeChild(node)] *)
Definition removeChild (id : nat) (w : World) : World :=
  set_head (filter (fun n => negb (Nat.eqb (node_id n) id)) (head w)) w.

(** [node.innerHTML = text] for a node of the head, by identity. *)
Definition setInnerHTML (id : nat) (text : string) (w : World) : World :=
  set_head
    (map (fun n => if Nat.eqb (node_id n) id
                   then {| node_id := node_id n; node_tag := node_tag n;
                           node_attrs := node_attrs n; node_inner := text |}
                   else n)
         (head w)) w.

(** A key can stand between the quotes of an attribute selector as it
    is when it holds no double quote, backslash or line break. *)
Definition selector_safe (key : string) : bool :=
  negb (contains dq key || contains "\" key || contains "010"%char key
        || contains "012"%char key || contains "013"%char key).

Definition has_key (tag key : string) (n : Node) : bool :=
  String.eqb (node_tag n) tag
  && match getAttribute "data-style-key" (node_attrs n) with
     | Some v => String.eqb v key
     | None => false
     end.

(** [document.querySelector(`tag[data-style-key=...]`)] with [key]
    between the quotes: the first such element, [None] for [null].  The
    search is among the children of the head, where this program puts
    its [style] and [link] elements; the markup of a container is text
    here.  For a key that is not [selector_safe] the embedding reports
    the SyntaxError of [querySelector]. *)
Definition querySelector (tag key : string) (w : World)
  : Outcome (option Node) :=
  if selector_safe key then Ret (find (has_key tag key) (head w))
  else Throw (SyntaxError "querySelector: not a valid selector").

(** [container.innerHTML = markup] *)
Definition write (id : nat) (markup : string) (w : World) : World :=
  set_body
    (map (fun kv => if Nat.eqb (fst kv) id
                    then (fst kv,
                          {| el_attrs := el_attrs (snd kv);
                             el_inner := markup |})
                    else kv)
         (body w)) w.

Definition element (id : nat) (w : World) : option Element :=
  match find (fun kv => Nat.eqb (fst kv) id) (body w) with
  | Some kv => Some (snd kv)
  | None => None
  end.

End DOM.

(* ================================================================== *)
(** ** core/StyleManager.js *)

Module StyleManager.
Import Str DOM.
Open Scope js_scope.

(** [styles] is the Map from key to style element, [injectedLinks] the
    Set of hrefs, both in insertion order. *)
Record StyleManager : Type := mkStyleManager {
  styles : list (string * nat);
  injectedLinks : list string
}.

(** [new StyleManager()] *)
Definition new : StyleManager := {| styles := []; injectedLinks := [] |}.

Definition St : Type := (World * StyleManager)%type.

Definition world : M St World := gets fst.
Definition self : M St StyleManager := gets snd.
Definition on_world (f : World -> World) : M St unit :=
  modify (fun s => (f (fst s), snd s)).
Definition on_self (f : StyleManager -> StyleManager) : M St unit :=
  modify (fun s => (fst s, f (snd s))).

Definition query (tag key : string) : M St (option Node) :=
  fun s => (querySelector tag key (fst s), s).

Definition set_style (key : string) (id : nat) (m : StyleManager) :=
  {| styles := JS.define key id (styles m);
     injectedLinks := injectedLinks m |}.

Definition delete_style (key : string) (m : StyleManager) :=
  {| styles := JS.remove key (styles m);
     injectedLinks := injectedLinks m |}.

Definition add_link (href : string) (m : StyleManager) :=
  {| styles := styles m;
     injectedLinks := if JS.mem href (injectedLinks m) then injectedLinks m
                      else injectedLinks m ++ [href] |}.

Definition delete_link (href : string) (m : StyleManager) :=
  {| styles := styles m;
     injectedLinks :=
       filter (fun h => negb (String.eqb h href)) (injectedLinks m) |}.

(** [isStyleLoaded(key)]; the query runs only when the Map misses. *)
Definition isStyleLoaded (key : string) : M St bool :=
  m <- self ;;
  if JS.has key (styles m) then ret true
  else (found <- query "style" key ;;
        ret (match found with Some _ => true | None => false end)).

(** [isInjectedLinkedStyleLoaded(href)] *)
Definition isInjectedLinkedStyleLoaded (href : string) : M St bool :=
  m <- self ;;
  if JS.mem href (injectedLinks m) then ret true
  else (found <- query "link" href ;;
        ret (match found with Some _ => true | None => false end)).

(** [prefixSelector(selector, hash)] *)
Definition prefixSelector (selector hash : string) : string :=
  join ", " (map (fun sel => trim sel ++ "-" ++ hash) (split "," selector)).

(** [rules.replace(...)] with the expression of the style rules, for
    the value of a map entry: only a string has [replace]. *)
Definition compact (rules : JS.JSValue) : Outcome string :=
  match rules with
  | JS.JStr text => Ret (Regex.replace_pure Regex.match_punct text)
  | JS.JUndefined | JS.JNull =>
      Throw (TypeError "Cannot read properties of undefined or null")
  | _ => Throw (TypeError "replace is not a function")
  end.

(** [Object.entries(v)] *)
Definition entries (v : JS.JSValue) : Outcome JS.Props :=
  match v with
  | JS.JUndefined | JS.JNull =>
      Throw (TypeError "Cannot convert undefined or null to object")
  | _ => Ret (JS.spreadable v)
  end.

Fixpoint map_outcome {A B} (f : A -> Outcome B) (l : list A)
  : Outcome (list B) :=
  match l with
  | [] => Ret []
  | x :: l' => obind (f x) (fun y => omap (cons y) (map_outcome f l'))
  end.

(** [processRules(rules, hash, scoped)] *)
Definition processRules (rules : JS.JSValue) (hash : string) (scoped : bool)
  : Outcome string :=
  obind (entries rules) (fun es =>
  omap (join " ")
    (map_outcome
       (fun entry =>
          obind (compact (snd entry)) (fun rule =>
          let selector := if scoped then prefixSelector (fst entry) hash
                          else fst entry in
          Ret (selector ++ " { " ++ rule ++ " }")))
       es)).

(** The body of the [forEach] of [addStyle]: the text one entry adds to
    [cssString]. *)
Definition entry_text (hash : string) (scoped : bool)
    (entry : string * JS.JSValue) : Outcome string :=
  let '(selector, rules) := entry in
  if startsWith "@media" selector then
    omap (fun body => selector ++ " { " ++ body ++ " }")
         (processRules rules hash scoped)
  else
    let selector := if scoped then prefixSelector selector hash
                    else selector in
    omap (fun body => selector ++ " { " ++ body ++ " }") (compact rules).

Fixpoint cssText (hash : string) (scoped : bool) (css : JS.Props)
  : Outcome string :=
  match css with
  | [] => Ret ""
  | entry :: css' =>
      obind (entry_text hash scoped entry) (fun t =>
      omap (append t) (cssText hash scoped css'))
  end.

(** The loop of [addStyle] over [Object.entries(css)]: the final
    [cssString]. *)
Definition cssString (hash : string) (scoped : bool) (css : JS.JSValue)
  : Outcome string :=
  obind (entries css) (cssText hash scoped).

(** [addStyle(key, css, hash, scoped)] *)
Definition addStyle (key : string) (css : JS.JSValue) (hash : string)
    (scoped : bool) : M St unit :=
  loaded <- isStyleLoaded key ;;
  if loaded then ret tt
  else
    (w <- world ;;
     let '(created, w1) := createElement "style" w in
     let styleElement :=
       setAttribute "data-style-key" (key ++ "-" ++ hash) created in
     on_world (fun _ => appendChild styleElement w1) ;;
     on_self (set_style key (node_id styleElement)) ;;
     text <- lift_outcome (cssString hash scoped css) ;;
     on_world (setInnerHTML (node_id styleElement) text)).

(** [removeStyle(key)] *)
Definition removeStyle (key : string) : M St unit :=
  styleElement <- query "style" key ;;
  match styleElement with
  | Some n =>
      on_world (removeChild (node_id n)) ;;
      on_self (delete_style key)
  | None => ret tt
  end.

(** [injectLinkedStyle(href, rel, crossorigin)] *)
Definition injectLinkedStyle (href rel crossorigin : string) : M St unit :=
  loaded <- isInjectedLinkedStyleLoaded href ;;
  if loaded then ret tt
  else
    (w <- world ;;
     let '(created, w1) := createElement "link" w in
     let n1 := setAttribute "href" href (setAttribute "rel" rel created) in
     let n2 := if negb (String.eqb crossorigin "")
               then setAttribute "crossorigin" "" n1 else n1 in
     let styleElement := setAttribute "data-style-key" href n2 in
     on_world (fun _ => appendChild styleElement w1) ;;
     on_self (add_link href)).

(** [removeInjectedLinkedStyle(href)] *)
Definition removeInjectedLinkedStyle (href : string) : M St unit :=
  styleElement <- query "link" href ;;
  match styleElement with
  | Some n =>
      on_world (removeChild (node_id n)) ;;
      on_self (delete_link href)
  | None => ret tt
  end.



(** [removeLinkedStyle(filename)] *)
Definition removeLinkedStyle (resolve : string -> Outcome string)
    (filename : string) : M St unit :=
  href <- lift_outcome (resolve filename) ;;
  styleElement <- query "link" filename ;;
  match styleElement with
  | Some n =>
      on_world (removeChild (node_id n)) ;;
      on_self (delete_link href)
  | None => ret tt
  end.

(** [removeAllStyles()]: each loop visits the entries its collection
    held when the loop began, a call deleting no entry but the current
    one. *)
Definition removeAllStyles : M St unit :=
  m <- self ;;
  for_each (map fst (styles m)) removeStyle ;;
  m' <- self ;;
  for_each (injectedLinks m') removeInjectedLinkedStyle.

End StyleManager.

(* ================================================================== *)
(** ** core/Target.js *)

Module Target.
Import Str JS DOM.

(** *** The static helpers *)

(** The literal [allowedTags] of [escapeHTML]: tag name and the
    attributes kept on it. *)
Definition allowedTags : list (string * list string) :=
  [ ("b", []); ("i", []); ("u", []); ("s", []); ("a", ["href"; "title"]);
    ("code", []); ("pre", []); ("blockquote", []); ("ul", []); ("ol", []);
    ("li", []); ("h1", []); ("h2", []); ("h3", []); ("h4", []); ("h5", []);
    ("h6", []); ("p", []); ("br", []); ("hr", []); ("table", []);
    ("thead", []); ("tbody", []); ("tfoot", []); ("tr", []); ("th", []);
    ("td", []); ("div", []); ("span", []) ].

(** [allowedTags[tagName]]: an array of the literal, a function
    inherited from [Object.prototype], or [undefined]. *)
Inductive Allowed : Type :=
| Listed (attributes : list string)
| Inherited
| Unlisted.

Definition allowed (tagName : string) : Allowed :=
  match lookup tagName allowedTags with
  | Some attributes => Listed attributes
  | None => if mem tagName object_prototype_methods then Inherited
            else Unlisted
  end.

(** The branch of [escapeHTML] that escapes everything,
    [str.replace(/[&<>...]/g, ...)] on a string. *)
Definition escape_entities (str : string) : string :=
  Regex.replace_pure Regex.match_entity str.

Definition open_tag (m : Regex.TagMatch) (safeAttrs : string) : string :=
  "<" ++ (if Regex.closing m then "/" else "") ++ Regex.tagName m
      ++ safeAttrs ++ ">".

(** One turn of the [while] loop over the attributes: what it appends to
    [safeAttrs].  Its call of [escapeHTML] is on a string, without
    [allowTags]. *)
Definition safe_attr (attributes : list string) (attr : string * string)
  : string :=
  if mem (fst attr) attributes
  then " " ++ fst attr ++ "=" ++ DQ ++ escape_entities (snd attr) ++ DQ
  else "".

(** The callback of [str.replace(tagRegex, ...)]. *)
Definition rewrite_tag (m : Regex.TagMatch) : Outcome string :=
  let found := Regex.exec_all Regex.match_attr (Regex.attrs m) in
  match allowed (Regex.tagName m) with
  | Listed attributes =>
      Ret (open_tag m (String.concat "" (map (safe_attr attributes) found)))
  | Inherited =>
      match found with
      | [] => Ret (open_tag m "")
      | _ :: _ => Throw (TypeError "includes is not a function")
      end
  | Unlisted =>
      Ret (Regex.replace_pure (Regex.match_char ">" "&gt;")
             (Regex.replace_pure (Regex.match_char "<" "&lt;")
                (Regex.fullTag m)))
  end.

(** [Target.escapeHTML(str, allowTags)] *)
Definition escapeHTML (str : JSValue) (allowTags : bool) : Outcome string :=
  let str := match str with
             | JNum n => JStr (Number_toString n)
             | _ => str
             end in
  match str with
  | JStr s =>
      if allowTags then Regex.replace Regex.match_tag rewrite_tag s
      else Ret (escape_entities s)
  | _ => Ret ""
  end.

(** The callback of [parseHTML]. *)
Definition substitute (placeholders : JSObject) (key : string)
  : Outcome string :=
  if negb (String.eqb (typeof (get placeholders key)) "undefined") then
    if String.eqb key "content"
    then escapeHTML (get placeholders key) true
    else escapeHTML (get placeholders key) false
  else Ret ("{{" ++ key ++ "}}").

(** [Target.parseHTML(template, placeholders)] *)
Definition parseHTML (template : string) (placeholders : JSObject)
  : Outcome string :=
  Regex.replace Regex.match_placeholder (substitute placeholders) template.

Definition suffixed (suffix classNames : string) : string :=
  "class=" ++ DQ
    ++ join " " (map (fun className => className ++ "-" ++ suffix)
                     (split " " classNames))
    ++ DQ.

(** [Target.scopeCSS(html, suffix)] *)
Definition scopeCSS (html suffix : string) : string :=
  Regex.replace_pure
    (fun s => match Regex.match_class s with
              | Some (classNames, len) => Some (suffixed suffix classNames, len)
              | None => None
              end)
    html.

(** The expression of [minifyHTML] at the start of [s]: a run of white
    space, replaced by one space. *)
Definition match_spaces (s : string) : option (string * nat) :=
  let '(run, _) := span is_space s in
  if String.eqb run "" then None else Some (" ", String.length run).

(** [Target.minifyHTML(html)] *)
Definition minifyHTML (html : string) : string :=
  trim (Regex.replace_pure match_spaces html).

(** [yieldElementString(yieldElements)].  [JSON_stringify] is
    [JSON.stringify], with [None] for the [undefined] it gives where a
    value has no JSON text. *)
Definition yieldElementString (JSON_stringify : JSValue -> option string)
    (yieldElements : JSValue) : Outcome string :=
  match JSON_stringify yieldElements with
  | Some text => Ret (Regex.replace_pure (Regex.match_char dq "&quot;") text)
  | None => Throw (TypeError "Cannot read properties of undefined")
  end.

(** The value [dataToObject] stores for one string.  [JSON_parse] is
    [JSON.parse], whose throw the [catch] turns into the string itself. *)
Definition coerce (JSON_parse : string -> Outcome JSValue) (value : string)
  : JSValue :=
  if String.eqb value "true" || String.eqb value "false" then
    JBool (String.eqb value "true")
  else if negb (number_isNaN (StringToNumber value)) then
    JNum (StringToNumber value)
  else if startsWith "{" value && endsWith "}" value then
    match JSON_parse value with
    | Ret parsed => parsed
    | _ => JStr value
    end
  else JStr value.

(** [Target.dataToObject(data)] for [data] a map of strings, given by
    its entries, or [None] for an absent one. *)
Definition dataToObject (JSON_parse : string -> Outcome JSValue)
    (data : option (list (string * string))) : Outcome JSObject :=
  match data with
  | None => Ret empty_object
  | Some entries =>
      Ret (fold_left
             (fun acc entry => set acc (fst entry)
                                   (coerce JSON_parse (snd entry)))
             entries empty_object)
  end.

(** *** Random hashes *)

(** A value of [Math.random()]: the double [numerator / 2^exponent],
    taken modulo 1. *)
Record Random : Type := mkRandom { numerator : N; exponent : nat }.

Definition digit36 (d : N) : ascii :=
  if N.ltb d 10 then ascii_of_N (48 + d) else ascii_of_N (87 + d).

(** The digits of [m / 2^k] in base 36. *)
Fixpoint fraction36 (fuel : nat) (m : N) (k : nat) : string :=
  match fuel with
  | 0 => ""
  | S n =>
      if N.eqb m 0 then ""
      else String (digit36 ((36 * m) / 2 ^ N.of_nat k))
                  (fraction36 n ((36 * m) mod 2 ^ N.of_nat k) k)
  end.

(** [x.toString(36)] of such a double, as its exact expansion: an engine
    prints it whole when it is short, which is when fewer than four
    digits follow the point. *)
Definition toString36 (x : Random) : string :=
  let m := (numerator x mod 2 ^ N.of_nat (exponent x))%N in
  if N.eqb m 0 then "0"
  else "0." ++ fraction36 (S (exponent x)) m (exponent x).

(** [generateRandomHash()], on the two values [Math.random()] gives. *)
Definition generateRandomHash (r1 r2 : Random) : string :=
  substring 2 6 (toString36 r1) ++ substring 2 6 (toString36 r2).

(** *** Instances *)

(** The request object that [fetch] makes, of the HTTP collaborator. *)
Record HTTPRequest : Type := mkHTTPRequest {
  apiURL : JSValue;
  defaultURLParams : JSObject;
  defaultHeaders : JSObject
}.

(** What a run of an instance did, in order: the hooks it entered and
    the markup it wrote into its container.  No code reads this history;
    it is kept for the statements about order. *)
Inductive Call : Type :=
| WillMount
| DidMount
| DidUpdate
| Wrote (container : nat) (markup : string).

Record Target : Type := mkTarget {
  props : JSObject;
  state : JSObject;
  container : option nat;      (* the container element, None for null *)
  parent : JSValue;
  api : option HTTPRequest;
  isMounted : bool;
  styleManager : StyleManager.StyleManager;
  hash : string;
  styleId : option string;     (* None for null *)
  calls : list Call
}.

Definition St : Type := (World * Target)%type.

Definition set_props (v : JSObject) (t : Target) : Target :=
  mkTarget v (state t) (container t) (parent t) (api t) (isMounted t)
           (styleManager t) (hash t) (styleId t) (calls t).

Definition set_state (v : JSObject) (t : Target) : Target :=
  mkTarget (props t) v (container t) (parent t) (api t) (isMounted t)
           (styleManager t) (hash t) (styleId t) (calls t).

Definition set_container (v : option nat) (t : Target) : Target :=
  mkTarget (props t) (state t) v (parent t) (api t) (isMounted t)
           (styleManager t) (hash t) (styleId t) (calls t).

Definition set_parent (v : JSValue) (t : Target) : Target :=
  mkTarget (props t) (state t) (container t) v (api t) (isMounted t)
           (styleManager t) (hash t) (styleId t) (calls t).

Definition set_api (v : option HTTPRequest) (t : Target) : Target :=
  mkTarget (props t) (state t) (container t) (parent t) v (isMounted t)
           (styleManager t) (hash t) (styleId t) (calls t).

Definition set_isMounted (v : bool) (t : Target) : Target :=
  mkTarget (props t) (state t) (container t) (parent t) (api t) v
           (styleManager t) (hash t) (styleId t) (calls t).

Definition set_styleManager (v : StyleManager.StyleManager) (t : Target)
  : Target :=
  mkTarget (props t) (state t) (container t) (parent t) (api t)
           (isMounted t) v (hash t) (styleId t) (calls t).

Definition record (c : Call) (t : Target) : Target :=
  mkTarget (props t) (state t) (container t) (parent t) (api t)
           (isMounted t) (styleManager t) (hash t) (styleId t)
           (calls t ++ [c]).

Open Scope js_scope.

Definition this : M St Target := gets snd.
Definition on_this (f : Target -> Target) : M St unit :=
  modify (fun s => (fst s, f (snd s))).
Definition on_world (f : World -> World) : M St unit :=
  modify (fun s => (f (fst s), snd s)).

(** A call of [this.styleManager]. *)
Definition with_styleManager {A} (m : M StyleManager.St A) : M St A :=
  fun s =>
    let '(r, (w, sm)) := m (fst s, styleManager (snd s)) in
    (r, (w, set_styleManager sm (snd s))).

(** [base.innerHTML = markup], for [base] the value of
    [this.container]. *)
Definition write_inner (base : option nat) (markup : string) : M St unit :=
  match base with
  | Some el =>
      on_world (write el markup) ;;
      on_this (record (Wrote el markup))
  | None => throw (TypeError "Cannot set properties of null")
  end.

(** The methods a subclass overrides.  Each is given [this.setState],
    the one method of the base class that the components of this
    repository call from a hook. *)
Definition Method (A : Type) : Type := (JSValue -> M St unit) -> M St A.

Record Class : Type := mkClass {
  targetWillMount : Method unit;
  targetDidMount : Method unit;
  targetDidUpdate : Method unit;
  targetWillUnmount : Method unit;
  render : Method string
}.

(** The class [Target] itself: its hooks only log, its [render] returns
    the empty string. *)
Definition Base : Class :=
  {| targetWillMount := fun _ => ret tt;
     targetDidMount := fun _ => ret tt;
     targetDidUpdate := fun _ => ret tt;
     targetWillUnmount := fun _ => ret tt;
     render := fun _ => ret "" |}.

(** [new Target(props, container)], with the values [Math.random()]
    gives to [generateRandomHash]. *)
Definition constructor (r1 r2 : Random) (props : JSObject)
    (container : option nat) (w : World) : Outcome Target :=
  match container with
  | None => Throw (TypeError "Cannot read properties of null")
  | Some el =>
      Ret {| props := props;
             state := empty_object;
             container := Some el;
             parent := JNull;
             api := None;
             isMounted := false;
             styleManager := StyleManager.new;
             hash := generateRandomHash r1 r2;
             styleId := match element el w with
                        | Some e => getAttribute "data-target-name" (el_attrs e)
                        | None => None
                        end;
             calls := [] |}
  end.

(** [getTargetName()] *)
Definition getTargetName : M St (option string) :=
  fun s =>
    match container (snd s) with
    | Some el =>
        (Ret (match element el (fst s) with
              | Some e => getAttribute "data-target-name" (el_attrs e)
              | None => None
              end), s)
    | None => (Throw (TypeError "Cannot read properties of null"), s)
    end.

(** [getHash()] *)
Definition getHash : M St string := gets (fun s => hash (snd s)).

(** [setParent(parent)] *)
Definition setParent (parent : JSValue) : M St unit :=
  on_this (set_parent parent).

(** [fetch(apiURL, defaultURLParams, defaultHeaders)] *)
Definition fetch (apiURL : JSValue) (defaultURLParams defaultHeaders : JSObject)
  : M St HTTPRequest :=
  let request := mkHTTPRequest apiURL defaultURLParams defaultHeaders in
  on_this (set_api (Some request)) ;;
  ret request.

Definition merge_state (newState : JSValue) (t : Target) : Target :=
  set_state (spread2 (JObject (state t)) newState) t.

(** [update()].  [fuel] bounds how deep hooks may nest calls of
    [setState]; the [setState] handed to the methods is the one of this
    instance. *)
Fixpoint update (fuel : nat) (c : Class) : M St unit :=
  match fuel with
  | 0 => lift_outcome OutOfFuel
  | S n =>
      let setState := fun newState =>
        on_this (merge_state newState) ;; update n c in
      t <- this ;;
      match container t with
      | Some _ =>
          when (negb (isMounted t))
               (on_this (record WillMount) ;; targetWillMount c setState) ;;
          base <- gets (fun s => container (snd s)) ;;
          markup <- render c setState ;;
          write_inner base markup ;;
          t1 <- this ;;
          when (negb (isMounted t1))
               (on_this (record DidMount) ;; targetDidMount c setState ;;
                on_this (set_isMounted true)) ;;
          on_this (record DidUpdate) ;;
          targetDidUpdate c setState
      | None => ret tt
      end
  end.

(** [setState(newState)] *)
Definition setState (fuel : nat) (c : Class) (newState : JSValue)
  : M St unit :=
  on_this (merge_state newState) ;; update fuel c.

(** [unmount()] *)
Definition unmount : M St unit :=
  with_styleManager StyleManager.removeAllStyles ;;
  base <- gets (fun s => container (snd s)) ;;
  write_inner base "".

(** [destroy()] *)
Definition destroy : M St unit :=
  unmount ;;
  on_this (set_container None).

End Target.

(** The function [render(target, container)] that [Target.js] exports. *)
Definition render (fuel : nat) (c : Target.Class) (container : nat)
  : M Target.St unit :=
  (output <- Target.render c (Target.setState fuel c) ;;
   Target.on_world (DOM.write container output) ;;
   Target.on_this (Target.record (Target.Wrote container output)) ;;
   Target.on_this (Target.record Target.DidMount) ;;
   Target.targetDidMount c (Target.setState fuel c))%js.

(* ================================================================== *)
(** ** components/partials/layouts/FluidContainer.js *)

(** The component is embedded for props and state of the shape it is
    written for: [html] a string, [css] a style map, [links] an array of
    descriptors, [api] a descriptor, the fetched data a map of strings.
    Where a property holds a value of another shape the embedding stops
    with a TypeError, which is what the engine does in most of these
    cases.  The texts of exception messages are abbreviated. *)
Module FluidContainer.
Import Str JS DOM Target.
Open Scope js_scope.

Definition LF : string := String "010"%char "".

(** [v.k] *)
Definition member (v : JSValue) (k : string) : Outcome JSValue :=
  match v with
  | JUndefined | JNull =>
      Throw (TypeError "Cannot read properties of undefined or null")
  | JObj ps q => Ret (get {| own := ps; proto := q |} k)
  | _ => Ret JUndefined
  end.

(** The text of a value inside a template literal. *)
Definition text_of (v : JSValue) : Outcome string :=
  match v with
  | JUndefined => Ret "undefined"
  | JNull => Ret "null"
  | JBool b => Ret (if b then "true" else "false")
  | JNum n => Ret (Number_toString n)
  | JStr s => Ret s
  | _ => Throw (TypeError "not a primitive value")
  end.

Definition as_string (v : JSValue) : Outcome string :=
  match v with
  | JStr s => Ret s
  | _ => Throw (TypeError "not a string")
  end.

(** An argument with the default [''] of [injectLinkedStyle]. *)
Definition string_or_default (v : JSValue) : Outcome string :=
  match v with
  | JUndefined => Ret ""
  | _ => as_string v
  end.

Fixpoint string_entries (ps : Props) : Outcome (list (string * string)) :=
  match ps with
  | [] => Ret []
  | (k, JStr s) :: ps' => omap (cons (k, s)) (string_entries ps')
  | _ => Throw (TypeError "not a map of strings")
  end.

Definition as_string_map (v : JSValue)
  : Outcome (option (list (string * string))) :=
  match v with
  | JObj ps _ => omap Some (string_entries ps)
  | _ => if truthy v then Throw (TypeError "not a map of strings")
         else Ret None
  end.

Definition prop (k : string) : M St JSValue :=
  gets (fun s => get (props (snd s)) k).

Definition state_of (k : string) : M St JSValue :=
  gets (fun s => get (state (snd s)) k).

(** Modelled from the spec: [HeadManager.setTitle], of the head
    collaborator that is not among the sources; it sets the title of
    the document. *)
Definition setTitle (v : JSValue) : M St unit :=
  t <- lift_outcome (text_of v) ;;
  Target.on_world (set_title t).

(** Modelled from the spec: [HTTPRequest.get], of the HTTP collaborator
    that is not among the sources.  The request is handed over; its
    answer comes later, through [onResolve] or [onReject]. *)
Definition api_get (endpoint : JSValue) : M St unit :=
  t <- this ;;
  match api t with
  | Some request =>
      url <- lift_outcome (text_of (apiURL request)) ;;
      Target.on_world (add_request (mkRequest url endpoint))
  | None => throw (TypeError "Cannot read properties of null")
  end.

Definition initial_state : JSObject :=
  literal [ ("data", JNull); ("loading", JBool true); ("error", JNull);
            ("fetched", JBool false) ].

(** [new FluidContainer(props, container)] *)
Definition constructor (r1 r2 : Random) (props : JSObject)
    (container : option nat) (w : World) : Outcome Target :=
  obind (Target.constructor r1 r2 props container w) (fun t =>
  let t := set_state initial_state t in
  if truthy (get props "api") then
    obind (member (get props "api") "url") (fun url =>
    obind (member (get props "api") "headers") (fun headers =>
    Ret (set_api (Some (mkHTTPRequest url empty_object
                          (spread2 headers JUndefined))) t)))
  else Ret t).

Definition inject_link (link : JSValue) : M St unit :=
  href <- lift_outcome (obind (member link "link") string_or_default) ;;
  rel <- lift_outcome (obind (member link "rel") string_or_default) ;;
  crossorigin <- lift_outcome (member link "crossorigin") ;;
  with_styleManager
    (StyleManager.injectLinkedStyle href rel
       (if truthy crossorigin then "crossorigin" else "")).

(** [targetWillMount()].  A null [styleId] reaches the selector and the
    attribute as the text [null]. *)
Definition targetWillMount : Method unit := fun _ =>
  css <- prop "css" ;;
  t <- this ;;
  when (truthy css)
    (scoped <- prop "scoped" ;;
     with_styleManager
       (StyleManager.addStyle
          (match styleId t with Some k => k | None => "null" end)
          css (hash t) (truthy scoped))) ;;
  links <- prop "links" ;;
  match links with
  | JArr items => for_each items inject_link
  | _ => if truthy links then throw (TypeError "not an array") else ret tt
  end.

(** [targetDidMount()] *)
Definition targetDidMount : Method unit := fun setState =>
  fetched <- state_of "fetched" ;;
  api <- prop "api" ;;
  when (negb (truthy fetched) && truthy api)
    (endpoint <- lift_outcome (member api "endpoint") ;;
     api_get endpoint) ;;
  api <- prop "api" ;;
  fetched <- state_of "fetched" ;;
  when (negb (truthy api) && negb (truthy fetched))
    (setState (JObject (literal [ ("loading", JBool false);
                                  ("fetched", JBool true) ]))).

Definition loading_markup : string :=
  LF ++ "        <div data-target-name=" ++ DQ ++ "loading" ++ DQ
     ++ " data-message='Loading...'></div>" ++ LF ++ "      ".

Definition error_markup (error : string) : string :=
  LF ++ "        <div data-target-name=" ++ DQ ++ "error" ++ DQ
     ++ " data-message='" ++ error ++ "'></div>" ++ LF ++ "      ".

(** [render()] *)
Definition render (JSON_parse : string -> Outcome JSValue) : Method string :=
  fun _ =>
  loading <- state_of "loading" ;;
  if truthy loading then
    lift_outcome (parseHTML loading_markup empty_object)
  else
    (error <- state_of "error" ;;
     if truthy error then
       (text <- lift_outcome (text_of error) ;;
        lift_outcome (parseHTML (error_markup text) empty_object))
     else
       (scoped <- prop "scoped" ;;
        when (truthy scoped)
          (html <- prop "html" ;;
           html <- lift_outcome (as_string html) ;;
           t <- this ;;
           on_this (set_props (set (props t) "html"
                                   (JStr (scopeCSS html (hash t)))))) ;;
        data <- state_of "data" ;;
        if truthy data then
          (title <- lift_outcome (member data "title") ;;
           when (truthy title) (setTitle title) ;;
           html <- prop "html" ;;
           html <- lift_outcome (as_string html) ;;
           entries <- lift_outcome (as_string_map data) ;;
           placeholders <- lift_outcome (dataToObject JSON_parse entries) ;;
           lift_outcome (parseHTML html placeholders))
        else
          (html <- prop "html" ;;
           html <- lift_outcome (as_string html) ;;
           lift_outcome (parseHTML html empty_object)))).

Definition class (JSON_parse : string -> Outcome JSValue) : Class :=
  {| Target.targetWillMount := targetWillMount;
     Target.targetDidMount := targetDidMount;
     Target.targetDidUpdate := fun _ => ret tt;
     Target.targetWillUnmount := fun _ => ret tt;
     Target.render := render JSON_parse |}.

Definition try_catch {S A} (m : M S A) (handler : Exn -> M S A) : M S A :=
  fun s =>
    match m s with
    | (Throw e, s') => handler e s'
    | r => r
    end.

Definition message (e : Exn) : string :=
  match e with
  | TypeError msg => msg
  | SyntaxError msg => msg
  end.

Definition failed (msg : string) : JSValue :=
  JObject (literal [ ("data", JNull); ("loading", JBool false);
                     ("error", JStr msg); ("fetched", JBool true) ]).

(** The request is answered with [json]: the callback of [then], and
    the one of [catch] if that throws. *)
Definition onResolve (fuel : nat) (JSON_parse : string -> Outcome JSValue)
    (json : JSValue) : M St unit :=
  try_catch
    (setState fuel (class JSON_parse)
       (JObject (literal [ ("data", json); ("loading", JBool false);
                           ("fetched", JBool true) ])))
    (fun e => setState fuel (class JSON_parse) (failed (message e))).

(** The request fails with an error of the message [msg]: the callback
    of [catch]. *)
Definition onReject (fuel : nat) (JSON_parse : string -> Outcome JSValue)
    (msg : string) : M St unit :=
  setState fuel (class JSON_parse) (failed msg).

End FluidContainer.

(* ================================================================== *)
(** ** components/partials/ui/Error.js *)

(** The component is embedded for props that are a map of strings, which
    is what [initialize] makes of data attributes; for props of another
    shape [render] stops with a TypeError. *)
Module Error.
Import Str JS DOM Target.
Open Scope js_scope.

Definition LF : string := String "010"%char "".

(** The constant [css] of the file: an empty style map. *)
Definition css : JSValue := JObject empty_object.

(** [new Error(props, container)] *)
Definition constructor (r1 r2 : Random) (props : JSObject)
    (container : option nat) (w : World) : Outcome Target :=
  omap (set_state empty_object) (Target.constructor r1 r2 props container w).

(** [targetWillMount()]: [addStyle] is called without a hash, which
    reaches the key of the style element as the text [undefined], and
    without [scoped]. *)
Definition targetWillMount : Method unit := fun _ =>
  t <- this ;;
  with_styleManager
    (StyleManager.addStyle
       (match styleId t with Some k => k | None => "null" end)
       css "undefined" false).

Definition template : string :=
  LF ++ "      <div class=" ++ DQ ++ "error row" ++ DQ ++ ">"
     ++ LF ++ "        <h1>{{title}}</h1>"
     ++ LF ++ "        <p>{{message}}</p>"
     ++ LF ++ "      </div>"
     ++ LF ++ "    ".

(** [render()] *)
Definition render (JSON_parse : string -> Outcome JSValue) : Method string :=
  fun _ =>
  t <- this ;;
  entries <- lift_outcome (FluidContainer.string_entries (own (props t))) ;;
  placeholders <- lift_outcome (dataToObject JSON_parse (Some entries)) ;;
  lift_outcome (parseHTML template placeholders).

Definition class (JSON_parse : string -> Outcome JSValue) : Class :=
  {| Target.targetWillMount := targetWillMount;
     Target.targetDidMount := fun _ => ret tt;
     Target.targetDidUpdate := fun _ => ret tt;
     Target.targetWillUnmount := fun _ => ret tt;
     Target.render := render JSON_parse |}.

End Error.

(* ================================================================== *)
(** ** A page and some components on it *)

Module Sample.
Import JS DOM.

(** A page with an empty head and one container, named [app], that
    holds markup of the server. *)
Definition page : World :=
  {| head := [];
     fresh := 0;
     body := [(0, {| el_attrs := [("data-target-name", "app")];
                     el_inner := "<p>from the server</p>" |})];
     title := "";
     requests := [] |}.

(** The doubles 1/2 and 1234567890123 / 2^52. *)
Definition half : Target.Random := Target.mkRandom 1 1.
Definition draw : Target.Random := Target.mkRandom 1234567890123 52.

Definition css : JSValue :=
  JObject (literal [ (".box, .note", JStr "color : red ; margin: 0");
                     ("@media (max-width: 600px)",
                      JObject (literal [ (".box", JStr "color: blue") ])) ]).

(** [{ html: '<p>hi</p>' }]: props of a FluidContainer without [api]. *)
Definition plain_props : JSObject := literal [ ("html", JStr "<p>hi</p>") ].

Definition patch : JSValue := JObject (literal [ ("loading", JBool false) ]).

(** The [Target] built on the container of [page] with two draws of 1/2,
    and what [destroy()] leaves of the page and of it. *)
Definition target : Target.Target :=
  Target.mkTarget empty_object empty_object (Some 0) JNull None false
    StyleManager.new "ii" (Some "app") [].

Definition destroyed : Target.St :=
  (DOM.write 0 "" page,
   Target.mkTarget empty_object empty_object None JNull None false
     StyleManager.new "ii" (Some "app") [Target.Wrote 0 ""]).

(** The FluidContainer built on the container of [page] with
    [plain_props] and two draws [draw]. *)
Definition fluid : Target.Target :=
  Target.mkTarget plain_props FluidContainer.initial_state (Some 0) JNull
    None false StyleManager.new "00cs00cs" (Some "app") [].

End Sample.

(* ================================================================== *)
(** ** Notions of the statements *)

(** A call that returns or throws, whatever the state. *)
Definition halts {S A} (m : M S A) : Prop :=
  forall s, fst (m s) <> OutOfFuel.

(** A method that returns and leaves the container, [isMounted] and the
    history of the instance as they are: it calls neither [setState] nor
    [update] on a live instance, and assigns none of these fields. *)
Definition quiet {A} (m : M Target.St A) : Prop :=
  forall s, exists a s',
    m s = (Ret a, s')
    /\ Target.container (snd s') = Target.container (snd s)
    /\ Target.isMounted (snd s') = Target.isMounted (snd s)
    /\ Target.calls (snd s') = Target.calls (snd s).

Definition quiet_class (c : Target.Class) : Prop :=
  (forall f, quiet (Target.targetWillMount c f))
  /\ (forall f, quiet (Target.targetDidMount c f))
  /\ (forall f, quiet (Target.targetDidUpdate c f))
  /\ (forall f, quiet (Target.render c f)).

(** A call that leaves [hash] as it is. *)
Definition keeps_hash {A} (m : M Target.St A) : Prop :=
  forall s, Target.hash (snd (snd (m s))) = Target.hash (snd s).

(** A class whose methods do not assign [hash], given a [setState] that
    does not. *)
Definition hash_respecting (c : Target.Class) : Prop :=
  forall setState, (forall v, keeps_hash (setState v)) ->
    keeps_hash (Target.targetWillMount c setState)
    /\ keeps_hash (Target.targetDidMount c setState)
    /\ keeps_hash (Target.targetDidUpdate c setState)
    /\ keeps_hash (Target.render c setState).

(** What full escaping puts for one character. *)
Definition escaped_char (c : ascii) : string :=
  match Regex.entity c with
  | Some e => e
  | None => String c ""
  end.

(** The characters that do not occur in fully escaped text. *)
Definition is_special (c : ascii) : bool :=
  Ascii.eqb c "<" || Ascii.eqb c ">" || Ascii.eqb c Str.dq || Ascii.eqb c "'".


(** The [data-style-key] of each child of the head. *)
Definition style_keys (w : DOM.World) : list (option string) :=
  map (fun n => DOM.getAttribute "data-style-key" (DOM.node_attrs n))
      (DOM.head w).

(** The style element [addStyle] creates for a key and a hash, and the
    state once it is appended and registered. *)
Definition style_node (key hash : string) (w : DOM.World) : DOM.Node :=
  DOM.mkNode (DOM.fresh w) "style"
    [("data-style-key", key ++ "-" ++ hash)] "".

Definition with_style (key hash : string) (s : StyleManager.St)
  : StyleManager.St :=
  (DOM.appendChild (style_node key hash (fst s))
     (snd (DOM.createElement "style" (fst s))),
   StyleManager.set_style key (DOM.fresh (fst s)) (snd s)).

(** The keys and hrefs of a registry can all stand in a selector: what
    holds of a registry that the methods of the manager filled. *)
Definition safe_registry (m : StyleManager.StyleManager) : Prop :=
  forallb DOM.selector_safe (map fst (StyleManager.styles m)) = true
  /\ forallb DOM.selector_safe (StyleManager.injectedLinks m) = true.



(** ** Notions of the further statements *)

(** The text full escaping returns for a value. *)
Definition escaped (v : JS.JSValue) : string :=
  match v with
  | JS.JNum n => Target.escape_entities (JS.Number_toString n)
  | JS.JStr s => Target.escape_entities s
  | _ => ""
  end.

(** [<a name=...>] with [v] between the quotes. *)
Definition anchor (name v : string) : string :=
  "<a " ++ name ++ "=" ++ Str.DQ ++ v ++ Str.DQ ++ ">".

(** [class=] and [names] between two double quotes. *)
Definition class_attr (names : string) : string :=
  "class=" ++ Str.DQ ++ names ++ Str.DQ.

(** A character that is no white space, or the space itself. *)
Definition only_space (c : ascii) : bool :=
  negb (Str.is_space c) || Ascii.eqb c " ".

(** The calls a user makes on an instance. *)
Inductive Op : Type :=
| OpUpdate
| OpSetState (newState : JS.JSValue)
| OpUnmount
| OpDestroy.

Definition perform (fuel : nat) (c : Target.Class) (op : Op)
  : M Target.St unit :=
  match op with
  | OpUpdate => Target.update fuel c
  | OpSetState newState => Target.setState fuel c newState
  | OpUnmount => Target.unmount
  | OpDestroy => Target.destroy
  end.

(** The state a sequence of calls leaves, where the caller goes on after
    a call that threw. *)
Definition perform_all (fuel : nat) (c : Target.Class) (ops : list Op)
    (s : Target.St) : Target.St :=
  fold_left (fun s op => snd (perform fuel c op s)) ops s.



(** A style map whose one rule is a number, which has no [replace]. *)
Definition broken_css : JS.JSValue :=
  JS.JObject (JS.literal [(".a", JS.JNum (JS.of_Z 1))]).


(** A mounted FluidContainer with [scoped] set whose markup has one
    class attribute, its request settled without data. *)
Definition scoped_fluid : Target.Target :=
  Target.mkTarget
    (JS.literal [ ("html", JS.JStr ("<p " ++ class_attr "box" ++ ">"));
                  ("scoped", JS.JBool true) ])
    (JS.literal [ ("data", JS.JNull); ("loading", JS.JBool false);
                  ("error", JS.JNull); ("fetched", JS.JBool true) ])
    (Some 0) JS.JNull None true StyleManager.new "00cs00cs" (Some "app") [].

(** A FluidContainer whose request failed with the given message. *)
Definition failed_fluid (msg : string) : Target.Target :=
  Target.mkTarget Sample.plain_props
    (JS.literal [ ("data", JS.JNull); ("loading", JS.JBool false);
                  ("error", JS.JStr msg); ("fetched", JS.JBool true) ])
    (Some 0) JS.JNull None true StyleManager.new "00cs00cs" (Some "app") [].

(** The markup of the Error component around a title and a message. *)
Definition error_page (title message : string) : string :=
  Error.LF ++ "      <div class=" ++ Str.DQ ++ "error row" ++ Str.DQ ++ ">"
    ++ Error.LF ++ "        <h1>" ++ title ++ "</h1>"
    ++ Error.LF ++ "        <p>" ++ message ++ "</p>"
    ++ Error.LF ++ "      </div>"
    ++ Error.LF ++ "    ".

(** An Error component with the two props its template names. *)
Definition error_target (title message : string) : Target.Target :=
  Target.mkTarget
    (JS.literal [("title", JS.JStr title); ("message", JS.JStr message)])
    JS.empty_object (Some 0) JS.JNull None false StyleManager.new "00cs00cs"
    (Some "app") [].

(** Markup with an event handler on an allowed tag. *)
Definition onclick_sample : string :=
  "<p onclick=" ++ Str.DQ ++ "evil()" ++ Str.DQ ++ ">hi".

(** Markup with a tag named like a method of [Object.prototype]. *)
Definition inherited_sample : string :=
  "<valueOf x=" ++ Str.DQ ++ "1" ++ Str.DQ ++ "> text".

(** One of the five characters that full escaping replaces. *)
Definition is_entity (c : ascii) : bool :=
  match Regex.entity c with Some _ => true | None => false end.

(** The string is empty or its first character fails [p]. *)
Definition head_not (p : ascii -> bool) (s : string) : bool :=
  match s with
  | "" => true
  | String c _ => negb (p c)
  end.

(** Placeholders of which one value holds a token itself. *)
Definition nested_tokens : JS.JSObject :=
  JS.literal [("x", JS.JStr "{{y}}<b>"); ("y", JS.JStr "inner")].

(* ================================================================== *)
(** * Properties *)

(** ** Calls and their states *)

Lemma bind_ret {S A B} (m : M S A) (k : A -> M S B) s a s' :
  m s = (Ret a, s') -> bind m k s = k a s'.
Proof. intros H. unfold bind. rewrite H. reflexivity. Qed.

Lemma bind_throw {S A B} (m : M S A) (k : A -> M S B) s e s' :
  m s = (Throw e, s') -> bind m k s = (Throw e, s').
Proof. intros H. unfold bind. rewrite H. reflexivity. Qed.



Lemma halts_bind {S A B} (m : M S A) (k : A -> M S B) :
  halts m -> (forall a, halts (k a)) -> halts (bind m k).
Proof.
  intros Hm Hk s. unfold bind. specialize (Hm s).
  destruct (m s) as [[a|e|] s1]; cbn in *.
  - apply Hk.
  - discriminate.
  - congruence.
Qed.

Lemma halts_for_each {S A} (l : list A) (f : A -> M S unit) :
  (forall x, halts (f x)) -> halts (for_each l f).
Proof.
  intros Hf. induction l as [|x l IH]; cbn.
  - intros s. discriminate.
  - apply halts_bind; auto.
Qed.

Lemma for_each_returns {S A} (P : S -> Prop) (l : list A)
    (f : A -> M S unit) :
  (forall x, In x l -> forall s, P s ->
     exists s', f x s = (Ret tt, s') /\ P s') ->
  forall s, P s -> exists s', for_each l f s = (Ret tt, s') /\ P s'.
Proof.
  induction l as [|x l IH]; intros Hf s Hs; cbn [for_each].
  - exists s. split; [reflexivity|exact Hs].
  - destruct (Hf x (or_introl eq_refl) s Hs) as (s1 & E1 & H1).
    rewrite (bind_ret _ _ s tt s1 E1).
    apply IH; [|exact H1]. intros y Hy. apply Hf. right. exact Hy.
Qed.

(** ** Strings *)

Lemma append_length (a b : string) :
  String.length (a ++ b) = String.length a + String.length b.
Proof.
  induction a as [|c a IH]; cbn; [reflexivity|]. rewrite IH. reflexivity.
Qed.

Lemma all_app (p : ascii -> bool) (a b : string) :
  Str.all p (a ++ b) = Str.all p a && Str.all p b.
Proof.
  induction a as [|c a IH]; cbn; [reflexivity|].
  rewrite IH, andb_assoc. reflexivity.
Qed.

Lemma drop_app (a b : string) (n : nat) :
  Str.drop (String.length a + n) (a ++ b) = Str.drop n b.
Proof. induction a as [|c a IH]; cbn; [reflexivity|exact IH]. Qed.




Lemma contains_cons_false (c d : ascii) (s : string) :
  Str.contains c (String d s) = false -> d <> c /\ Str.contains c s = false.
Proof.
  simpl. intros H. apply orb_false_iff in H. destruct H as [H1 H2].
  split; [|exact H2].
  intros ->. rewrite Ascii.eqb_refl in H1. discriminate.
Qed.

(** ** Property tables *)

Lemma has_define {A} k (v : A) l : JS.has k (JS.define k v l) = true.
Proof.
  unfold JS.has. induction l as [|[k' v'] l IH]; cbn.
  - rewrite String.eqb_refl. reflexivity.
  - destruct (String.eqb k k') eqn:E; cbn.
    + rewrite String.eqb_refl. reflexivity.
    + rewrite E. exact IH.
Qed.

Lemma lookup_define_same {A} k (v : A) l :
  JS.lookup k (JS.define k v l) = Some v.
Proof.
  induction l as [|[k' v'] l IH]; cbn.
  - rewrite String.eqb_refl. reflexivity.
  - destruct (String.eqb k k') eqn:E; cbn.
    + rewrite String.eqb_refl. reflexivity.
    + rewrite E. exact IH.
Qed.

Lemma lookup_define_other {A} k k' (v : A) l :
  k <> k' -> JS.lookup k (JS.define k' v l) = JS.lookup k l.
Proof.
  intros Hne. induction l as [|[k2 v2] l IH]; cbn.
  - destruct (String.eqb_spec k k'); [contradiction|reflexivity].
  - destruct (String.eqb_spec k' k2) as [->|Hk2]; cbn.
    + destruct (String.eqb_spec k k2); [contradiction|reflexivity].
    + destruct (String.eqb k k2); [reflexivity|exact IH].
Qed.

Lemma set_own_same (o : JS.JSObject) k v :
  k <> "__proto__" -> JS.lookup k (JS.own (JS.set o k v)) = Some v.
Proof.
  intros Hne. unfold JS.set.
  destruct (JS.has k (JS.own o)); cbn; [apply lookup_define_same|].
  destruct (String.eqb_spec k "__proto__"); [contradiction|].
  cbn. apply lookup_define_same.
Qed.

Lemma set_own_other (o : JS.JSObject) k k' v :
  k <> k' -> JS.lookup k (JS.own (JS.set o k' v)) = JS.lookup k (JS.own o).
Proof.
  intros Hne. unfold JS.set.
  destruct (JS.has k' (JS.own o)); cbn; [apply lookup_define_other; exact Hne|].
  destruct (String.eqb k' "__proto__"
            && JS.reaches_object_prototype (JS.proto o)
            && negb (JS.shadowed k' (JS.proto o))).
  - destruct v; cbn; try reflexivity.
  - cbn. apply lookup_define_other; exact Hne.
Qed.

(** ** The replacement scan *)

Lemma replace_from_skip {M : Type} (matcher : string -> option (M * nat))
    (emit : M -> Outcome string) (k : nat) (s : string) :
  Regex.replace_from matcher emit k s
  = Regex.replace_from matcher emit 0 (Str.drop k s).
Proof.
  revert k; induction s as [|c s IH]; intros [|k]; simpl; auto.
Qed.

Lemma replace_no_match {M : Type} (matcher : string -> option (M * nat))
    (emit : M -> Outcome string) (c : ascii) (s : string) :
  matcher (String c s) = None ->
  Regex.replace matcher emit (String c s)
  = omap (String c) (Regex.replace matcher emit s).
Proof.
  intros H. unfold Regex.replace. simpl. rewrite H. reflexivity.
Qed.

Lemma replace_match {M : Type} (matcher : string -> option (M * nat))
    (emit : M -> Outcome string) (s : string) (m : M) (len : nat) :
  matcher s = Some (m, len) -> s <> "" ->
  Regex.replace matcher emit s
  = obind (emit m) (fun out =>
    obind (Regex.replace matcher emit (Str.drop (Nat.max 1 len) s))
          (fun rest => Ret (out ++ rest))).
Proof.
  intros H Hs. destruct s as [|c s]; [congruence|].
  unfold Regex.replace. cbn [Regex.replace_from]. rewrite H.
  rewrite replace_from_skip.
  destruct len as [|len]; simpl; rewrite ?Nat.sub_0_r; reflexivity.
Qed.

Lemma match_tag_needs_lt (c : ascii) (s : string) :
  c <> "<"%char -> Regex.match_tag (String c s) = None.
Proof.
  intros Hc.
  destruct c as [[] [] [] [] [] [] [] []]; try reflexivity.
  exfalso; apply Hc; reflexivity.
Qed.

Lemma match_tag_length (s : string) (m : Regex.TagMatch) (len : nat) :
  Regex.match_tag s = Some (m, len) -> 1 <= len.
Proof.
  unfold Regex.match_tag.
  destruct s as [|c r]; [discriminate|].
  destruct c as [[] [] [] [] [] [] [] []]; try discriminate.
  destruct (match r with String "/" r' => (true, r') | _ => (false, r) end)
    as [slash r1].
  destruct (Str.span Str.is_alpha r1) as [name r2].
  destruct (String.eqb name ""); [discriminate|].
  destruct (Regex.before ">" r2); [|discriminate].
  intros H; inversion H; lia.
Qed.

(** ** Escaping *)

Lemma escape_entities_cons (c : ascii) (s : string) :
  Target.escape_entities (String c s)
  = escaped_char c ++ Target.escape_entities s.
Proof.
  unfold Target.escape_entities, Regex.replace_pure, escaped_char.
  cbn [Regex.replace_pure_from Regex.match_entity].
  destruct (Regex.entity c); reflexivity.
Qed.




Lemma escaped_char_clean (c : ascii) :
  Str.all (fun d => negb (is_special d)) (escaped_char c) = true.
Proof.
  unfold escaped_char, Regex.entity, is_special.
  destruct (Ascii.eqb c "&"); [reflexivity|].
  destruct (Ascii.eqb c "<") eqn:E1; [reflexivity|].
  destruct (Ascii.eqb c ">") eqn:E2; [reflexivity|].
  destruct (Ascii.eqb c Str.dq) eqn:E3; [reflexivity|].
  destruct (Ascii.eqb c "'") eqn:E4; [reflexivity|].
  cbn. rewrite E1, E2, E3, E4. reflexivity.
Qed.

Lemma escape_entities_clean (s : string) :
  Str.all (fun d => negb (is_special d)) (Target.escape_entities s) = true.
Proof.
  induction s as [|c s IH]; [reflexivity|].
  rewrite escape_entities_cons, all_app, escaped_char_clean, IH. reflexivity.
Qed.

Lemma escapeHTML_number (n : JS.JSNumber) (allowTags : bool) :
  Target.escapeHTML (JS.JNum n) allowTags
  = Target.escapeHTML (JS.JStr (JS.Number_toString n)) allowTags.
Proof. reflexivity. Qed.

Lemma escapeHTML_other (v : JS.JSValue) (allowTags : bool) :
  JS.typeof v <> "number" -> JS.typeof v <> "string" ->
  Target.escapeHTML v allowTags = Ret "".
Proof.
  destruct v; cbn; intros H1 H2; try reflexivity; congruence.
Qed.

Lemma escapeHTML_allowTags_unfold (s : string) :
  Target.escapeHTML (JS.JStr s) true
  = Regex.replace Regex.match_tag Target.rewrite_tag s.
Proof. reflexivity. Qed.

Lemma escapeHTML_allowTags_plain (s : string) :
  Str.contains "<" s = false -> Target.escapeHTML (JS.JStr s) true = Ret s.
Proof.
  rewrite escapeHTML_allowTags_unfold.
  induction s as [|c s IH]; intros H; [reflexivity|].
  apply contains_cons_false in H. destruct H as [Hc Hs].
  rewrite replace_no_match by (apply match_tag_needs_lt; exact Hc).
  rewrite IH by exact Hs. reflexivity.
Qed.

(** C10: with [allowTags] true, a character at which [tagRegex] does not
    match goes to the output as it is, whatever it is: every character
    other than [<], so the ampersand, the double quote and the apostrophe,
    and a [<] that opens no tag.  Only a match of [tagRegex] is rewritten,
    by [rewrite_tag], and the scan resumes behind it.  A string without
    [<] comes back unchanged: no entity escaping of bare text. *)
Theorem escapeHTML_allowTags_passes_text :
  (forall c s, Regex.match_tag (String c s) = None ->
     Target.escapeHTML (JS.JStr (String c s)) true
     = omap (String c) (Target.escapeHTML (JS.JStr s) true))
  /\ (forall c s, c <> "<"%char -> Regex.match_tag (String c s) = None)
  /\ (forall s m len, Regex.match_tag s = Some (m, len) ->
        Target.escapeHTML (JS.JStr s) true
        = obind (Target.rewrite_tag m) (fun out =>
          obind (Target.escapeHTML (JS.JStr (Str.drop len s)) true)
                (fun rest => Ret (out ++ rest))))
  /\ (forall s, Str.contains "<" s = false ->
        Target.escapeHTML (JS.JStr s) true = Ret s).
Proof.
  repeat split.
  - intros c s H. rewrite !escapeHTML_allowTags_unfold.
    apply replace_no_match; exact H.
  - intros c s Hc. apply match_tag_needs_lt; exact Hc.
  - intros s m len H. rewrite !escapeHTML_allowTags_unfold.
    pose proof (match_tag_length s m len H) as Hlen.
    rewrite (replace_match _ _ s m len H).
    + replace (Nat.max 1 len) with len by lia. reflexivity.
    + intros ->. discriminate.
  - apply escapeHTML_allowTags_plain.
Qed.

Lemma escapeHTML_allowTags_passes_text_witness :
  (Regex.match_tag "< b" = None
   /\ Target.escapeHTML (JS.JStr "< b") true
      = omap (String "<") (Target.escapeHTML (JS.JStr " b") true))
  /\ ("&"%char <> "<"%char /\ Regex.match_tag "&amp" = None)
  /\ (Regex.match_tag "<i>&"
      = Some (Regex.mkTag "<i>" false "i" "", 3)
      /\ Target.escapeHTML (JS.JStr "<i>&") true
         = obind (Target.rewrite_tag (Regex.mkTag "<i>" false "i" ""))
             (fun out =>
              obind (Target.escapeHTML (JS.JStr (Str.drop 3 "<i>&")) true)
                    (fun rest => Ret (out ++ rest))))
  /\ (Str.contains "<" "Tom & 'Jerry'" = false
      /\ Target.escapeHTML (JS.JStr "Tom & 'Jerry'") true
         = Ret "Tom & 'Jerry'").
Proof.
  destruct escapeHTML_allowTags_passes_text as (H1 & H2 & H3 & H4).
  split; [split; [reflexivity|apply H1; reflexivity]|].
  split; [split; [discriminate|apply H2; discriminate]|].
  split; [split; [reflexivity|apply H3; reflexivity]|].
  split; [reflexivity|apply H4; reflexivity].
Defined.

(** C7: [tagRegex] takes letters only for the tag name, so of [<h1>] it
    takes [h] and leaves [1] to the attributes; [h] is not in
    [allowedTags] and the tag is escaped as a disallowed one.  The tags
    [h1] to [h6] are on the allow-list, and the claim has a tag of the
    allow-list kept.  The two examples of the claim give what it says. *)
Theorem escapeHTML_escapes_headings :
  Target.escapeHTML (JS.JStr "<h1>Title</h1>") true
  = Ret "&lt;h1&gt;Title&lt;/h1&gt;"
  /\ map (fun tag => Target.escapeHTML (JS.JStr tag) true)
         ["<h1>"; "<h2>"; "<h3>"; "<h4>"; "<h5>"; "<h6>"]
     = map Ret ["&lt;h1&gt;"; "&lt;h2&gt;"; "&lt;h3&gt;"; "&lt;h4&gt;";
                "&lt;h5&gt;"; "&lt;h6&gt;"]
  /\ map (fun tag => JS.has tag Target.allowedTags)
         ["h1"; "h2"; "h3"; "h4"; "h5"; "h6"]
     = [true; true; true; true; true; true]
  /\ Target.escapeHTML (JS.JStr "<b>hi</b>") false
     = Ret "&lt;b&gt;hi&lt;/b&gt;"
  /\ Target.escapeHTML (JS.JStr "<b>hi</b><script>x</script>") true
     = Ret "<b>hi</b>&lt;script&gt;x&lt;/script&gt;".
Proof. repeat split. Qed.

(** ** Templates *)

Lemma span_word_key (key rest : string) :
  Str.all Str.is_word key = true ->
  Str.span Str.is_word (key ++ String "}" (String "}" rest))
  = (key, String "}" (String "}" rest)).
Proof.
  induction key as [|c key IH]; intros H.
  - reflexivity.
  - cbn [Str.all] in H. apply andb_true_iff in H. destruct H as [Hc Hk].
    cbn [append Str.span]. rewrite Hc, (IH Hk). reflexivity.
Qed.

Lemma match_placeholder_token (key rest : string) :
  Str.all Str.is_word key = true -> key <> "" ->
  Regex.match_placeholder ("{{" ++ key ++ "}}" ++ rest)
  = Some (key, String.length key + 4).
Proof.
  intros Hw Hne.
  change ("{{" ++ key ++ "}}" ++ rest)
    with (String "{" (String "{" (key ++ String "}" (String "}" rest)))).
  cbn [Regex.match_placeholder].
  rewrite (span_word_key key rest Hw).
  destruct (String.eqb_spec key ""); [contradiction|]. reflexivity.
Qed.

Lemma typeof_undefined (v : JS.JSValue) :
  String.eqb (JS.typeof v) "undefined" = true <-> v = JS.JUndefined.
Proof.
  split; [|intros ->; reflexivity].
  destruct v; cbn; intros H; try discriminate; reflexivity.
Qed.

Lemma substitute_defined (placeholders : JS.JSObject) (key : string) :
  JS.get placeholders key <> JS.JUndefined ->
  Target.substitute placeholders key
  = Target.escapeHTML (JS.get placeholders key) (String.eqb key "content").
Proof.
  intros H. unfold Target.substitute.
  destruct (String.eqb (JS.typeof (JS.get placeholders key)) "undefined") eqn:E.
  - apply typeof_undefined in E. contradiction.
  - cbn. destruct (String.eqb key "content"); reflexivity.
Qed.

Lemma substitute_absent (placeholders : JS.JSObject) (key : string) :
  JS.get placeholders key = JS.JUndefined ->
  Target.substitute placeholders key = Ret ("{{" ++ key ++ "}}").
Proof. intros H. unfold Target.substitute. rewrite H. reflexivity. Qed.

Lemma parseHTML_token (key rest : string) (placeholders : JS.JSObject) :
  Str.all Str.is_word key = true -> key <> "" ->
  Target.parseHTML ("{{" ++ key ++ "}}" ++ rest) placeholders
  = obind (Target.substitute placeholders key) (fun out =>
    obind (Target.parseHTML rest placeholders) (fun tail =>
    Ret (out ++ tail))).
Proof.
  intros Hw Hne. unfold Target.parseHTML.
  rewrite (replace_match _ _ _ key (String.length key + 4)
             (match_placeholder_token key rest Hw Hne)) by discriminate.
  replace (Nat.max 1 (String.length key + 4))
    with (S (S (String.length key + 2))) by lia.
  change ("{{" ++ key ++ "}}" ++ rest)
    with (String "{" (String "{" (key ++ String "}" (String "}" rest)))).
  cbn [Str.drop]. rewrite drop_app. reflexivity.
Qed.

Lemma parseHTML_text (c : ascii) (s : string) (placeholders : JS.JSObject) :
  Regex.match_placeholder (String c s) = None ->
  Target.parseHTML (String c s) placeholders
  = omap (String c) (Target.parseHTML s placeholders).
Proof. intros H. unfold Target.parseHTML. apply replace_no_match. exact H. Qed.

(** C6: [placeholders[key]] also finds what an object inherits from
    [Object.prototype].  For the token of [constructor] and the empty map
    it is a function, not [undefined], and [escapeHTML] of a function is
    the empty string: the token is replaced, where the claim leaves a
    token whose identifier is absent from the map in place.  The template
    of the claim gives what the claim says. *)
Theorem parseHTML_replaces_inherited_key :
  Target.parseHTML "{{constructor}}" JS.empty_object = Ret ""
  /\ Target.parseHTML "Hello {{toString}}!" (JS.literal [("name", JS.JStr "A")])
     = Ret "Hello !"
  /\ Target.parseHTML "{{x}} and {{y}}" (JS.literal [("x", JS.JStr "A")])
     = Ret "A and {{y}}".
Proof. repeat split. Qed.

(** ** Data attributes *)

Lemma dataToObject_total (JSON_parse : string -> Outcome JS.JSValue)
    (data : option (list (string * string))) :
  exists o, Target.dataToObject JSON_parse data = Ret o.
Proof. destruct data; eexists; reflexivity. Qed.




Lemma dataToObject_example (JSON_parse : string -> Outcome JS.JSValue) :
  JSON_parse ("{" ++ Str.DQ ++ "x" ++ Str.DQ ++ ":1}")
    = Ret (JS.JObject (JS.literal [("x", JS.JNum (JS.of_Z 1))])) ->
  Target.dataToObject JSON_parse
    (Some [ ("a", "true"); ("b", "42");
            ("c", "{" ++ Str.DQ ++ "x" ++ Str.DQ ++ ":1}"); ("d", "hello") ])
  = Ret (JS.literal
           [ ("a", JS.JBool true); ("b", JS.JNum (JS.of_Z 42));
             ("c", JS.JObject (JS.literal [("x", JS.JNum (JS.of_Z 1))]));
             ("d", JS.JStr "hello") ]).
Proof.
  intros H. unfold Target.dataToObject. cbn [fold_left fst snd].
  unfold Target.coerce at 2. cbn in H. 
  vm_compute. vm_compute in H. rewrite H. reflexivity.
Qed.

(** C8: [isNaN] of the empty string is false, [Number] of it being [0]:
    [dataToObject] stores the number [0] for an empty string, and for one
    of white space, where the claim keeps a string that is not fully
    numeric as it is.  An entry under the key [__proto__] is not stored
    at all: the assignment goes to the setter of [Object.prototype],
    which drops a string. *)
Theorem dataToObject_empty_string_is_zero
    (JSON_parse : string -> Outcome JS.JSValue) :
  Target.dataToObject JSON_parse (Some [("a", ""); ("b", "  ")])
  = Ret (JS.literal [ ("a", JS.JNum (JS.of_Z 0)); ("b", JS.JNum (JS.of_Z 0)) ])
  /\ Target.dataToObject JSON_parse (Some [("__proto__", "hello")])
     = Ret JS.empty_object.
Proof. split; reflexivity. Qed.

(** ** Hashes *)





(** C9: the base-36 text of the double 1/2 is [0.i], of which
    [substring(2, 6)] is the one character [i]: with two such values of
    [Math.random()] the hash is [ii], of two characters, and with two
    zeros it is empty, where the claim has exactly eight. *)
Theorem generateRandomHash_short :
  Target.toString36 Sample.half = "0.i"
  /\ Target.generateRandomHash Sample.half Sample.half = "ii"
  /\ String.length (Target.generateRandomHash Sample.half Sample.half) = 2
  /\ Target.generateRandomHash (Target.mkRandom 0 52) (Target.mkRandom 0 52)
     = "".
Proof. repeat split. Qed.

Lemma keeps_hash_bind {A B} (m : M Target.St A) (k : A -> M Target.St B) :
  keeps_hash m -> (forall a, keeps_hash (k a)) -> keeps_hash (bind m k).
Proof.
  intros Hm Hk s. unfold bind. specialize (Hm s).
  destruct (m s) as [[a|e|] s1]; cbn in *; try exact Hm.
  rewrite Hk. exact Hm.
Qed.

Lemma keeps_hash_ret {A} (a : A) : keeps_hash (ret a).
Proof. intros s. reflexivity. Qed.

Lemma keeps_hash_gets {A} (f : Target.St -> A) : keeps_hash (gets f).
Proof. intros s. reflexivity. Qed.

Lemma keeps_hash_lift {A} (x : Outcome A) : keeps_hash (lift_outcome x).
Proof. intros s. reflexivity. Qed.

Lemma keeps_hash_throw {A} (e : Exn) : keeps_hash (@throw Target.St A e).
Proof. intros s. reflexivity. Qed.

Lemma keeps_hash_on_world (f : DOM.World -> DOM.World) :
  keeps_hash (Target.on_world f).
Proof. intros s. reflexivity. Qed.

Lemma keeps_hash_on_this (f : Target.Target -> Target.Target) :
  (forall t, Target.hash (f t) = Target.hash t) ->
  keeps_hash (Target.on_this f).
Proof. intros Hf s. cbn. apply Hf. Qed.

Lemma keeps_hash_when (b : bool) (m : M Target.St unit) :
  keeps_hash m -> keeps_hash (when b m).
Proof. intros Hm. destruct b; [exact Hm|apply keeps_hash_ret]. Qed.

Lemma keeps_hash_with_styleManager {A} (m : M StyleManager.St A) :
  keeps_hash (Target.with_styleManager m).
Proof.
  intros s. unfold Target.with_styleManager.
  destruct (m (fst s, Target.styleManager (snd s))) as [r [w sm]]. reflexivity.
Qed.

Lemma keeps_hash_write_inner (base : option nat) (markup : string) :
  keeps_hash (Target.write_inner base markup).
Proof.
  destruct base; cbn [Target.write_inner]; [|apply keeps_hash_throw].
  apply keeps_hash_bind; [apply keeps_hash_on_world|]. intros _.
  apply keeps_hash_on_this. reflexivity.
Qed.



Lemma keeps_hash_update (fuel : nat) (c : Target.Class) :
  hash_respecting c -> keeps_hash (Target.update fuel c).
Proof.
  intros Hc. induction fuel as [|fuel IH]; [apply keeps_hash_lift|].
  cbn [Target.update].
  set (setState := fun newState : JS.JSValue => _).
  assert (Hset : forall v, keeps_hash (setState v)).
  { intros v. apply keeps_hash_bind; [|intros _; exact IH].
    apply keeps_hash_on_this. reflexivity. }
  destruct (Hc setState Hset) as (Hwill & Hdid & Hupd & Hrender).
  apply keeps_hash_bind; [apply keeps_hash_gets|]. intros t.
  destruct (Target.container t); [|apply keeps_hash_ret].
  repeat (first
    [ apply keeps_hash_bind; [|intros ?]
    | apply keeps_hash_when
    | apply keeps_hash_gets
    | apply keeps_hash_write_inner
    | apply keeps_hash_on_this; reflexivity
    | assumption ]).
Qed.

Lemma Base_hash_respecting : hash_respecting Target.Base.
Proof. intros setState _. repeat split. Qed.

(** [update], [setState], [unmount] and [destroy] leave [hash] as the
    constructor set it. *)
Lemma hash_never_changes (fuel : nat) (c : Target.Class) (v : JS.JSValue) :
  hash_respecting c ->
  keeps_hash (Target.update fuel c)
  /\ keeps_hash (Target.setState fuel c v)
  /\ keeps_hash Target.unmount
  /\ keeps_hash Target.destroy.
Proof.
  intros Hc.
  assert (Hunmount : keeps_hash Target.unmount).
  { unfold Target.unmount.
    apply keeps_hash_bind; [apply keeps_hash_with_styleManager|]. intros _.
    apply keeps_hash_bind; [apply keeps_hash_gets|]. intros base.
    apply keeps_hash_write_inner. }
  repeat split.
  - apply keeps_hash_update. exact Hc.
  - apply keeps_hash_bind; [apply keeps_hash_on_this; reflexivity|].
    intros _. apply keeps_hash_update. exact Hc.
  - exact Hunmount.
  - apply keeps_hash_bind; [exact Hunmount|]. intros _.
    apply keeps_hash_on_this. reflexivity.
Qed.

(** ** The style registry *)

Lemma halts_query tag key : halts (StyleManager.query tag key).
Proof.
  intros s. unfold StyleManager.query, DOM.querySelector. cbn.
  destruct (DOM.selector_safe key); discriminate.
Qed.

Lemma halts_modify {S} (f : S -> S) : halts (modify f).
Proof. intros s. discriminate. Qed.

Lemma halts_gets {S A} (f : S -> A) : halts (gets f).
Proof. intros s. discriminate. Qed.

Lemma halts_ret {S A} (a : A) : halts (@ret S A a).
Proof. intros s. discriminate. Qed.

Lemma halts_removeStyle key : halts (StyleManager.removeStyle key).
Proof.
  unfold StyleManager.removeStyle.
  apply halts_bind; [apply halts_query|].
  intros [n|]; [|apply halts_ret].
  apply halts_bind; [apply halts_modify|]. intros _. apply halts_modify.
Qed.

Lemma halts_removeInjectedLinkedStyle href :
  halts (StyleManager.removeInjectedLinkedStyle href).
Proof.
  unfold StyleManager.removeInjectedLinkedStyle.
  apply halts_bind; [apply halts_query|].
  intros [n|]; [|apply halts_ret].
  apply halts_bind; [apply halts_modify|]. intros _. apply halts_modify.
Qed.

Lemma halts_removeAllStyles : halts StyleManager.removeAllStyles.
Proof.
  unfold StyleManager.removeAllStyles.
  apply halts_bind; [apply halts_gets|]. intros m.
  apply halts_bind; [apply halts_for_each, halts_removeStyle|]. intros _.
  apply halts_bind; [apply halts_gets|]. intros m'.
  apply halts_for_each, halts_removeInjectedLinkedStyle.
Qed.

Lemma addStyle_registered key css hash scoped s :
  JS.has key (StyleManager.styles (snd s)) = true ->
  StyleManager.addStyle key css hash scoped s = (Ret tt, s).
Proof.
  intros H. unfold StyleManager.addStyle, StyleManager.isStyleLoaded.
  unfold bind, StyleManager.self, gets. cbn. rewrite H. reflexivity.
Qed.

Lemma addStyle_registers key css hash scoped s :
  JS.has key (StyleManager.styles (snd s)) = false ->
  DOM.querySelector "style" key (fst s) = Ret None ->
  JS.has key (StyleManager.styles
                (snd (snd (StyleManager.addStyle key css hash scoped s))))
  = true.
Proof.
  intros Hhas Q. unfold StyleManager.addStyle, StyleManager.isStyleLoaded.
  unfold bind, StyleManager.self, StyleManager.world, gets,
    StyleManager.query, StyleManager.on_world, StyleManager.on_self,
    modify, lift_outcome.
  rewrite Hhas, Q. cbn.
  destruct (StyleManager.cssString hash scoped css); cbn; apply has_define.
Qed.

Lemma addStyle_found key css hash scoped s n :
  JS.has key (StyleManager.styles (snd s)) = false ->
  DOM.querySelector "style" key (fst s) = Ret (Some n) ->
  StyleManager.addStyle key css hash scoped s = (Ret tt, s).
Proof.
  intros Hhas Q. unfold StyleManager.addStyle, StyleManager.isStyleLoaded.
  unfold bind, StyleManager.self, gets, StyleManager.query.
  rewrite Hhas, Q. reflexivity.
Qed.

Lemma addStyle_unsafe key css hash scoped s e :
  JS.has key (StyleManager.styles (snd s)) = false ->
  DOM.querySelector "style" key (fst s) = Throw e ->
  StyleManager.addStyle key css hash scoped s = (Throw e, s).
Proof.
  intros Hhas Q. unfold StyleManager.addStyle, StyleManager.isStyleLoaded.
  unfold bind, StyleManager.self, gets, StyleManager.query.
  rewrite Hhas, Q. reflexivity.
Qed.

(** X3: the second of two calls of [addStyle] with one key leaves the head
    and the registry as the first left them, whatever the maps and
    hashes. *)
Lemma addStyle_twice key css hash scoped css' hash' scoped' s :
  snd (StyleManager.addStyle key css' hash' scoped'
         (snd (StyleManager.addStyle key css hash scoped s)))
  = snd (StyleManager.addStyle key css hash scoped s).
Proof.
  destruct (JS.has key (StyleManager.styles (snd s))) eqn:Hhas.
  - rewrite (addStyle_registered key css hash scoped s Hhas). cbn [snd].
    rewrite (addStyle_registered key css' hash' scoped' s Hhas). reflexivity.
  - destruct (DOM.querySelector "style" key (fst s)) as [[n|]|e|] eqn:Q.
    + rewrite (addStyle_found key css hash scoped s n Hhas Q). cbn [snd].
      rewrite (addStyle_found key css' hash' scoped' s n Hhas Q). reflexivity.
    + rewrite addStyle_registered; [reflexivity|].
      apply addStyle_registers; assumption.
    + rewrite (addStyle_unsafe key css hash scoped s e Hhas Q). cbn [snd].
      rewrite (addStyle_unsafe key css' hash' scoped' s e Hhas Q). reflexivity.
    + unfold DOM.querySelector in Q.
      destruct (DOM.selector_safe key); discriminate.
Qed.

Lemma derived_key_differs (key hash : string) : key ++ "-" ++ hash <> key.
Proof.
  intros H. apply (f_equal String.length) in H.
  rewrite !append_length in H. cbn in H. lia.
Qed.

Lemma find_app_none {A} (p : A -> bool) (l : list A) (x : A) :
  find p l = None -> p x = false -> find p (l ++ [x])%list = None.
Proof.
  intros Hl Hx. induction l as [|y l IH]; cbn in *.
  - rewrite Hx. reflexivity.
  - destruct (p y); [discriminate|]. apply IH. exact Hl.
Qed.

Lemma find_map_none {A} (p : A -> bool) (f : A -> A) (l : list A) :
  (forall x, p (f x) = p x) -> find p l = None -> find p (map f l) = None.
Proof.
  intros Hf. induction l as [|y l IH]; cbn; [reflexivity|].
  rewrite Hf. destruct (p y); [discriminate|]. exact IH.
Qed.

Lemma has_key_derived (key hash : string) (id : nat) (inner : string) :
  DOM.has_key "style" key
    (DOM.mkNode id "style" [("data-style-key", key ++ "-" ++ hash)] inner)
  = false.
Proof.
  unfold DOM.has_key. cbn. apply String.eqb_neq.
  exact (derived_key_differs key hash).
Qed.

Lemma querySelector_safe tag key w r :
  DOM.querySelector tag key w = Ret r ->
  DOM.selector_safe key = true /\ r = find (DOM.has_key tag key) (DOM.head w).
Proof.
  unfold DOM.querySelector. destruct (DOM.selector_safe key); [|discriminate].
  intros H; inversion H; auto.
Qed.



Lemma addStyle_appends key css hash scoped s :
  JS.has key (StyleManager.styles (snd s)) = false ->
  DOM.querySelector "style" key (fst s) = Ret None ->
  snd (StyleManager.addStyle key css hash scoped s)
  = match StyleManager.cssString hash scoped css with
    | Ret text => (DOM.setInnerHTML (DOM.fresh (fst s)) text
                     (fst (with_style key hash s)),
                   snd (with_style key hash s))
    | _ => with_style key hash s
    end.
Proof.
  intros Hhas Q. unfold StyleManager.addStyle, StyleManager.isStyleLoaded.
  unfold bind, StyleManager.self, StyleManager.world, gets,
    StyleManager.query, StyleManager.on_world, StyleManager.on_self,
    modify, lift_outcome, ret.
  rewrite Hhas, Q. cbn.
  destruct (StyleManager.cssString hash scoped css); reflexivity.
Qed.

(** Where the head holds no style element under the bare key, the element
    [addStyle] appends is not found under it either: [removeStyle] of the
    key just added does nothing. *)
Lemma removeStyle_after_addStyle key css hash scoped s :
  JS.has key (StyleManager.styles (snd s)) = false ->
  DOM.querySelector "style" key (fst s) = Ret None ->
  StyleManager.removeStyle key
    (snd (StyleManager.addStyle key css hash scoped s))
  = (Ret tt, snd (StyleManager.addStyle key css hash scoped s)).
Proof.
  intros Hhas Q.
  destruct (querySelector_safe _ _ _ _ Q) as [Hsafe Hfind].
  rewrite (addStyle_appends key css hash scoped s Hhas Q).
  assert (Hnone : find (DOM.has_key "style" key)
                    (DOM.head (fst (with_style key hash s))) = None).
  { cbn. apply find_app_none; [symmetry; exact Hfind|].
    apply has_key_derived. }
  assert (Hquiet : forall s1, 
            find (DOM.has_key "style" key) (DOM.head (fst s1)) = None ->
            StyleManager.removeStyle key s1 = (Ret tt, s1)).
  { intros s1 H1. unfold StyleManager.removeStyle, bind, StyleManager.query,
      DOM.querySelector. rewrite Hsafe, H1. reflexivity. }
  destruct (StyleManager.cssString hash scoped css) as [text|e|];
    apply Hquiet; try exact Hnone.
  cbn [fst DOM.setInnerHTML DOM.set_head DOM.head].
  apply find_map_none; [|exact Hnone].
  intros n. destruct (Nat.eqb (DOM.node_id n) _); reflexivity.
Qed.

Lemma removeStyle_returns (key : string) (s : StyleManager.St) :
  DOM.selector_safe key = true ->
  exists s', StyleManager.removeStyle key s = (Ret tt, s')
             /\ StyleManager.injectedLinks (snd s')
                = StyleManager.injectedLinks (snd s).
Proof.
  intros Hsafe. unfold StyleManager.removeStyle, bind, StyleManager.query,
    DOM.querySelector. rewrite Hsafe.
  destruct (find _ _); eexists; split; reflexivity.
Qed.

Lemma removeInjectedLinkedStyle_returns (href : string) (s : StyleManager.St) :
  DOM.selector_safe href = true ->
  exists s', StyleManager.removeInjectedLinkedStyle href s = (Ret tt, s').
Proof.
  intros Hsafe. unfold StyleManager.removeInjectedLinkedStyle, bind,
    StyleManager.query, DOM.querySelector. rewrite Hsafe.
  destruct (find _ _); eexists; reflexivity.
Qed.

Lemma removeAllStyles_returns (s : StyleManager.St) :
  safe_registry (snd s) ->
  exists s', StyleManager.removeAllStyles s = (Ret tt, s').
Proof.
  intros [Hkeys Hlinks]. unfold StyleManager.removeAllStyles.
  rewrite (bind_ret _ _ s (snd s) s) by reflexivity.
  destruct (for_each_returns
              (fun s1 => StyleManager.injectedLinks (snd s1)
                         = StyleManager.injectedLinks (snd s))
              (map fst (StyleManager.styles (snd s)))
              StyleManager.removeStyle) with (s := s) as (s1 & E1 & H1).
  - intros key Hin s0 H0.
    destruct (removeStyle_returns key s0) as (s' & E & H).
    + exact (proj1 (forallb_forall _ _) Hkeys key Hin).
    + exists s'. split; [exact E|congruence].
  - reflexivity.
  - rewrite (bind_ret _ _ s tt s1 E1).
    rewrite (bind_ret _ _ s1 (snd s1) s1) by reflexivity.
    destruct (for_each_returns (fun _ => True)
                (StyleManager.injectedLinks (snd s1))
                StyleManager.removeInjectedLinkedStyle) with (s := s1)
      as (s2 & E2 & _).
    + intros href Hin s0 _.
      destruct (removeInjectedLinkedStyle_returns href s0) as (s' & E).
      * rewrite H1 in Hin.
        exact (proj1 (forallb_forall _ _) Hlinks href Hin).
      * exists s'. split; [exact E|exact I].
    + exact I.
    + exists s2. exact E2.
Qed.

Lemma forallb_define (p : string -> bool) (k : string) (v : nat)
    (l : list (string * nat)) :
  p k = true -> forallb p (map fst l) = true ->
  forallb p (map fst (JS.define k v l)) = true.
Proof.
  intros Hk. induction l as [|[k' v'] l IH]; cbn; intros H.
  - rewrite Hk. reflexivity.
  - apply andb_true_iff in H. destruct H as [H1 H2].
    destruct (String.eqb k k'); cbn.
    + rewrite Hk. exact H2.
    + rewrite H1. apply IH. exact H2.
Qed.

Lemma addStyle_safe key css hash scoped s :
  safe_registry (snd s) ->
  safe_registry (snd (snd (StyleManager.addStyle key css hash scoped s))).
Proof.
  intros Hsafe.
  destruct (JS.has key (StyleManager.styles (snd s))) eqn:Hhas.
  - rewrite (addStyle_registered key css hash scoped s Hhas). exact Hsafe.
  - destruct (DOM.querySelector "style" key (fst s)) as [[n|]|e|] eqn:Q.
    + rewrite (addStyle_found key css hash scoped s n Hhas Q). exact Hsafe.
    + rewrite (addStyle_appends key css hash scoped s Hhas Q).
      destruct (querySelector_safe _ _ _ _ Q) as [Hkey _].
      destruct Hsafe as [Hkeys Hlinks].
      assert (H : safe_registry (snd (with_style key hash s))).
      { split; [|exact Hlinks]. cbn. apply forallb_define; assumption. }
      destruct (StyleManager.cssString hash scoped css); exact H.
    + rewrite (addStyle_unsafe key css hash scoped s e Hhas Q). exact Hsafe.
    + unfold DOM.querySelector in Q.
      destruct (DOM.selector_safe key); discriminate.
Qed.


(** C4: the style element [addStyle] appends carries the key with the
    hash, while [isStyleLoaded] asks the head for the key alone.  A second
    manager, given the key and hash whose style element the first one left
    in the head, does not find it and appends another; the claim has it do
    nothing.  On one manager the second call does nothing, through the
    Map. *)
Theorem addStyle_misses_derived_key :
  exists w1 m1 w2 m2,
    StyleManager.addStyle "app" Sample.css "abcd1234" false
      (Sample.page, StyleManager.new) = (Ret tt, (w1, m1))
    /\ style_keys w1 = [Some "app-abcd1234"]
    /\ StyleManager.addStyle "app" Sample.css "abcd1234" false
         (w1, StyleManager.new) = (Ret tt, (w2, m2))
    /\ style_keys w2 = [Some "app-abcd1234"; Some "app-abcd1234"]
    /\ StyleManager.addStyle "app" Sample.css "abcd1234" false (w1, m1)
       = (Ret tt, (w1, m1)).
Proof.
  do 4 eexists.
  split; [vm_compute; reflexivity|].
  split; [reflexivity|].
  split; [vm_compute; reflexivity|].
  split; reflexivity.
Qed.

(** C5: [removeStyle(key)] asks the head for a style element whose
    [data-style-key] is the key, and the element that [addStyle] made
    carries the key with the hash.  After [addStyle], [removeStyle] of the
    same key and [removeAllStyles] find nothing: the element stays in the
    head and the key in the registry, where the claim has both removed. *)
Theorem removeStyle_misses_added_style :
  exists w1 m1,
    StyleManager.addStyle "app" Sample.css "abcd1234" false
      (Sample.page, StyleManager.new) = (Ret tt, (w1, m1))
    /\ style_keys w1 = [Some "app-abcd1234"]
    /\ StyleManager.styles m1 = [("app", 0)]
    /\ StyleManager.removeStyle "app" (w1, m1) = (Ret tt, (w1, m1))
    /\ StyleManager.removeAllStyles (w1, m1) = (Ret tt, (w1, m1)).
Proof.
  do 2 eexists.
  split; [vm_compute; reflexivity|].
  repeat split.
Qed.

(** ** Mounting *)

(** The first [update()] of an instance of a quiet class: the order of
    the mount. *)
Lemma update_mounts (fuel : nat) (c : Target.Class) (s : Target.St)
    (el : nat) :
  quiet_class c ->
  Target.container (snd s) = Some el -> Target.isMounted (snd s) = false ->
  exists markup s',
    Target.update (S fuel) c s = (Ret tt, s')
    /\ Target.calls (snd s')
       = (Target.calls (snd s)
          ++ [ Target.WillMount; Target.Wrote el markup; Target.DidMount;
               Target.DidUpdate ])%list
    /\ Target.isMounted (snd s') = true
    /\ Target.container (snd s') = Some el.
Proof.
  intros (Hwill & Hdid & Hupd & Hrender) Hc Hm.
  cbn [Target.update].
  set (setState := fun newState : JS.JSValue => _).
  rewrite (bind_ret _ _ s (snd s) s) by reflexivity.
  rewrite Hc, Hm. cbn [negb when].
  set (s1 := (fst s, Target.record Target.WillMount (snd s))).
  destruct (Hwill setState s1) as ([] & s2 & E2 & C2 & M2 & L2).
  rewrite (bind_ret _ _ s tt s2).
  2:{ rewrite (bind_ret _ _ s tt s1) by reflexivity. exact E2. }
  rewrite (bind_ret _ _ s2 (Target.container (snd s2)) s2) by reflexivity.
  destruct (Hrender setState s2) as (markup & s3 & E3 & C3 & M3 & L3).
  rewrite (bind_ret _ _ s2 markup s3) by exact E3.
  exists markup.
  cbn in C2, M2, L2. rewrite C2, Hc.
  set (s4 := (DOM.write el markup (fst s3),
              Target.record (Target.Wrote el markup) (snd s3))).
  rewrite (bind_ret _ _ s3 tt s4) by reflexivity.
  rewrite (bind_ret _ _ s4 (snd s4) s4) by reflexivity.
  assert (M4 : Target.isMounted (snd s4) = false) by (cbn; congruence).
  rewrite M4. cbn [negb when].
  set (s5 := (fst s4, Target.record Target.DidMount (snd s4))).
  destruct (Hdid setState s5) as ([] & s6 & E6 & C6 & M6 & L6).
  set (s7 := (fst s6, Target.set_isMounted true (snd s6))).
  rewrite (bind_ret _ _ s4 tt s7).
  2:{ rewrite (bind_ret _ _ s4 tt s5) by reflexivity.
      rewrite (bind_ret _ _ s5 tt s6) by exact E6. reflexivity. }
  set (s8 := (fst s7, Target.record Target.DidUpdate (snd s7))).
  rewrite (bind_ret _ _ s7 tt s8) by reflexivity.
  destruct (Hupd setState s8) as ([] & s9 & E9 & C9 & M9 & L9).
  exists s9. split; [exact E9|].
  cbn in *. rewrite L9, L6, L3, L2, M9, C9, C6, C3, C2, Hc.
  repeat split. rewrite <- !app_assoc. reflexivity.
Qed.

(** An [update()] of a mounted instance of a quiet class enters no mount
    hook. *)
Lemma update_keeps_mounted (fuel : nat) (c : Target.Class) (s : Target.St)
    (el : nat) :
  quiet_class c ->
  Target.container (snd s) = Some el -> Target.isMounted (snd s) = true ->
  exists markup s',
    Target.update (S fuel) c s = (Ret tt, s')
    /\ Target.calls (snd s')
       = (Target.calls (snd s)
          ++ [Target.Wrote el markup; Target.DidUpdate])%list
    /\ Target.isMounted (snd s') = true
    /\ Target.container (snd s') = Some el.
Proof.
  intros (Hwill & Hdid & Hupd & Hrender) Hc Hm.
  cbn [Target.update].
  set (setState := fun newState : JS.JSValue => _).
  rewrite (bind_ret _ _ s (snd s) s) by reflexivity.
  rewrite Hc, Hm. cbn [negb when].
  rewrite (bind_ret _ _ s tt s) by reflexivity.
  rewrite (bind_ret _ _ s (Target.container (snd s)) s) by reflexivity.
  destruct (Hrender setState s) as (markup & s3 & E3 & C3 & M3 & L3).
  rewrite (bind_ret _ _ s markup s3) by exact E3.
  exists markup. rewrite Hc.
  set (s4 := (DOM.write el markup (fst s3),
              Target.record (Target.Wrote el markup) (snd s3))).
  rewrite (bind_ret _ _ s3 tt s4) by reflexivity.
  rewrite (bind_ret _ _ s4 (snd s4) s4) by reflexivity.
  assert (M4 : Target.isMounted (snd s4) = true) by (cbn; congruence).
  rewrite M4. cbn [negb when].
  rewrite (bind_ret _ _ s4 tt s4) by reflexivity.
  set (s8 := (fst s4, Target.record Target.DidUpdate (snd s4))).
  rewrite (bind_ret _ _ s4 tt s8) by reflexivity.
  destruct (Hupd setState s8) as ([] & s9 & E9 & C9 & M9 & L9).
  exists s9. split; [exact E9|].
  cbn in *. rewrite L9, L3, M9, C9, C3, M3, Hc, Hm.
  repeat split. rewrite <- !app_assoc. reflexivity.
Qed.

(** X4: [setState] on a mounted instance of a quiet class writes the
    markup again and enters [targetDidUpdate], and no mount hook. *)
Lemma setState_keeps_mounted (fuel : nat) (c : Target.Class) (v : JS.JSValue)
    (s : Target.St) (el : nat) :
  quiet_class c ->
  Target.container (snd s) = Some el -> Target.isMounted (snd s) = true ->
  exists markup s',
    Target.setState (S fuel) c v s = (Ret tt, s')
    /\ Target.calls (snd s')
       = (Target.calls (snd s)
          ++ [Target.Wrote el markup; Target.DidUpdate])%list
    /\ Target.isMounted (snd s') = true
    /\ Target.container (snd s') = Some el.
Proof.
  intros Hq Hc Hm. unfold Target.setState.
  rewrite (bind_ret _ _ s tt (fst s, Target.merge_state v (snd s)))
    by reflexivity.
  apply (update_keeps_mounted fuel c (fst s, Target.merge_state v (snd s))
           el Hq); assumption.
Qed.

Lemma Base_quiet : quiet_class Target.Base.
Proof.
  repeat split; intros f s; eexists; exists s; repeat split.
Qed.

(** The first [update()] of an instance of the class [Target] itself, and
    a later one: the states they leave. *)
Lemma Base_update (fuel : nat) (w : DOM.World) (t : Target.Target)
    (el : nat) :
  Target.container t = Some el ->
  Target.update (S fuel) Target.Base (w, t)
  = (Ret tt,
     (DOM.write el "" w,
      if Target.isMounted t
      then Target.record Target.DidUpdate
             (Target.record (Target.Wrote el "") t)
      else Target.record Target.DidUpdate
             (Target.set_isMounted true
                (Target.record Target.DidMount
                   (Target.record (Target.Wrote el "")
                      (Target.record Target.WillMount t)))))).
Proof.
  intros Hc. destruct t as [p st c pa a m sm h sid cs]. cbn in Hc. subst c.
  destruct m; reflexivity.
Qed.

(** C1: a FluidContainer without [api] calls [setState] from
    [targetDidMount], while [isMounted] is still false; the [update()]
    this starts enters [targetWillMount] and [targetDidMount] again.  The
    first [update()] of the instance so enters each of the two hooks
    twice, where the claim has exactly once and never again. *)
Theorem first_update_mounts_twice (JSON_parse : string -> Outcome JS.JSValue)
    (fuel : nat) :
  FluidContainer.constructor Sample.draw Sample.draw Sample.plain_props
    (Some 0) Sample.page = Ret Sample.fluid
  /\ exists s,
       Target.update (2 + fuel) (FluidContainer.class JSON_parse)
         (Sample.page, Sample.fluid) = (Ret tt, s)
       /\ Target.calls (snd s)
          = [ Target.WillMount; Target.Wrote 0 FluidContainer.loading_markup;
              Target.DidMount;
              Target.WillMount; Target.Wrote 0 "<p>hi</p>"; Target.DidMount;
              Target.DidUpdate; Target.DidUpdate ]
       /\ Target.isMounted (snd s) = true.
Proof.
  split; [reflexivity|].
  exists (snd (Target.update (2 + fuel) (FluidContainer.class JSON_parse)
                 (Sample.page, Sample.fluid))).
  split; [vm_compute; reflexivity|].
  split; vm_compute; reflexivity.
Qed.

(** ** The lifecycle of a torn-down instance *)

Lemma with_styleManager_container {A} (m : M StyleManager.St A) s :
  Target.container (snd (snd (Target.with_styleManager m s)))
  = Target.container (snd s).
Proof.
  unfold Target.with_styleManager.
  destruct (m (fst s, Target.styleManager (snd s))) as [r [w sm]].
  reflexivity.
Qed.

Lemma with_styleManager_outcome {A} (m : M StyleManager.St A) s :
  fst (Target.with_styleManager m s)
  = fst (m (fst s, Target.styleManager (snd s))).
Proof.
  unfold Target.with_styleManager.
  destruct (m (fst s, Target.styleManager (snd s))) as [r [w sm]].
  reflexivity.
Qed.

Lemma unmount_without_container (s : Target.St) :
  Target.container (snd s) = None ->
  exists e s', Target.unmount s = (Throw e, s').
Proof.
  intros H. unfold Target.unmount.
  pose proof (with_styleManager_container StyleManager.removeAllStyles s) as Hc.
  pose proof (with_styleManager_outcome StyleManager.removeAllStyles s) as Ho.
  pose proof (halts_removeAllStyles (fst s, Target.styleManager (snd s))) as Hh.
  destruct (Target.with_styleManager StyleManager.removeAllStyles s)
    as [[[]|e|] s1] eqn:E; cbn [fst snd] in Hc, Ho.
  - rewrite (bind_ret _ _ s tt s1) by exact E.
    rewrite (bind_ret _ _ s1 (Target.container (snd s1)) s1) by reflexivity.
    rewrite Hc, H. eexists; eexists; reflexivity.
  - rewrite (bind_throw _ _ s e s1) by exact E. eexists; eexists; reflexivity.
  - exfalso. apply Hh. symmetry. exact Ho.
Qed.

Lemma destroy_without_container (s : Target.St) :
  Target.container (snd s) = None ->
  exists e s', Target.destroy s = (Throw e, s').
Proof.
  intros H. destruct (unmount_without_container s H) as (e & s' & E).
  exists e, s'. unfold Target.destroy. apply bind_throw. exact E.
Qed.

Lemma destroy_releases (s s' : Target.St) :
  Target.destroy s = (Ret tt, s') -> Target.container (snd s') = None.
Proof.
  unfold Target.destroy, bind.
  destruct (Target.unmount s) as [[[]|e|] s1]; cbn; intros H;
    inversion H; reflexivity.
Qed.

Lemma update_without_container (fuel : nat) (c : Target.Class)
    (s : Target.St) :
  Target.container (snd s) = None ->
  Target.update (S fuel) c s = (Ret tt, s).
Proof.
  intros H. cbn [Target.update]. unfold bind at 1.
  unfold Target.this, gets. rewrite H. reflexivity.
Qed.

(** [destroy()] of an instance that has its container returns. *)
Lemma destroy_returns (s : Target.St) (el : nat) :
  Target.container (snd s) = Some el ->
  safe_registry (Target.styleManager (snd s)) ->
  exists s', Target.destroy s = (Ret tt, s').
Proof.
  intros Hc Hsafe.
  destruct (removeAllStyles_returns (fst s, Target.styleManager (snd s)) Hsafe)
    as ([w sm] & E).
  unfold Target.destroy, Target.unmount.
  assert (E1 : Target.with_styleManager StyleManager.removeAllStyles s
               = (Ret tt, (w, Target.set_styleManager sm (snd s)))).
  { unfold Target.with_styleManager. rewrite E. reflexivity. }
  set (s1 := (w, Target.set_styleManager sm (snd s))) in *.
  set (s2 := (DOM.write el "" (fst s1),
              Target.record (Target.Wrote el "") (snd s1))).
  exists (fst s2, Target.set_container None (snd s2)).
  rewrite (bind_ret _ _ s tt s2); [reflexivity|].
  rewrite (bind_ret _ _ s tt s1 E1).
  rewrite (bind_ret _ _ s1 (Some el) s1)
    by (unfold gets; subst s1; cbn; rewrite Hc; reflexivity).
  reflexivity.
Qed.

Lemma setState_without_container (fuel : nat) (c : Target.Class)
    (newState : JS.JSValue) (s : Target.St) :
  Target.container (snd s) = None ->
  Target.setState (S fuel) c newState s
  = (Ret tt, (fst s, Target.merge_state newState (snd s))).
Proof.
  intros H. unfold Target.setState, bind at 1. cbn [Target.on_this modify].
  apply update_without_container. exact H.
Qed.

(** The answer to a request of a FluidContainer that was destroyed in
    the meantime: [state] takes the data, and nothing else changes. *)
Lemma onResolve_after_destroy (fuel : nat)
    (JSON_parse : string -> Outcome JS.JSValue) (json : JS.JSValue)
    (s s' : Target.St) :
  Target.destroy s = (Ret tt, s') ->
  exists t,
    FluidContainer.onResolve (S fuel) JSON_parse json s'
    = (Ret tt, (fst s', t))
    /\ Target.calls t = Target.calls (snd s')
    /\ Target.container t = None.
Proof.
  intros H. apply destroy_releases in H.
  unfold FluidContainer.onResolve, FluidContainer.try_catch.
  rewrite setState_without_container by exact H.
  eexists. split; [reflexivity|]. split; [reflexivity|exact H].
Qed.

(** C3: after a [destroy()] that returned, [setState(newState)] returns
    for every class and every patch, leaves the world, and with it the
    DOM, as it is, and changes nothing of the instance but [state], which
    holds the merge: no hook is entered and nothing is written. *)
Theorem setState_after_destroy (fuel : nat) (c : Target.Class)
    (newState : JS.JSValue) (s s' : Target.St) :
  Target.destroy s = (Ret tt, s') ->
  Target.setState (S fuel) c newState s'
  = (Ret tt, (fst s', Target.merge_state newState (snd s'))).
Proof.
  intros H. apply setState_without_container.
  apply destroy_releases with (s := s). exact H.
Qed.

Lemma setState_after_destroy_witness :
  (Target.constructor Sample.half Sample.half JS.empty_object (Some 0)
     Sample.page = Ret Sample.target
   /\ Target.destroy (Sample.page, Sample.target)
      = (Ret tt, Sample.destroyed))
  /\ Target.setState 1 Target.Base Sample.patch Sample.destroyed
     = (Ret tt, (fst Sample.destroyed,
                 Target.merge_state Sample.patch (snd Sample.destroyed))).
Proof.
  assert (H : Target.destroy (Sample.page, Sample.target)
              = (Ret tt, Sample.destroyed)) by reflexivity.
  split; [split; [reflexivity|exact H]|].
  exact (setState_after_destroy 0 Target.Base Sample.patch _ _ H).
Defined.

(** C2: on the instance that [destroy()] has torn down, [unmount()] and a
    second [destroy()] throw the TypeError of writing [innerHTML] of the
    null container, where the claim has them return silently; [update()]
    and [setState(patch)] do return and leave the DOM alone. *)
Theorem unmount_after_destroy_throws :
  Target.destroy (Sample.page, Sample.target) = (Ret tt, Sample.destroyed)
  /\ Target.unmount Sample.destroyed
     = (Throw (TypeError "Cannot set properties of null"), Sample.destroyed)
  /\ Target.destroy Sample.destroyed
     = (Throw (TypeError "Cannot set properties of null"), Sample.destroyed)
  /\ Target.update 1 Target.Base Sample.destroyed = (Ret tt, Sample.destroyed)
  /\ DOM.dom (fst (snd (Target.setState 1 Target.Base Sample.patch
                          Sample.destroyed)))
     = DOM.dom (fst Sample.destroyed).
Proof. repeat split. Qed.

(* ================================================================== *)
(** * Further properties *)

(** ** Escaping, further *)

Lemma escapeHTML_full (v : JS.JSValue) :
  Target.escapeHTML v false = Ret (escaped v).
Proof. destruct v; reflexivity. Qed.

Lemma escaped_clean (v : JS.JSValue) :
  Str.all (fun c => negb (is_special c)) (escaped v) = true.
Proof. destruct v; try reflexivity; apply escape_entities_clean. Qed.

(** X5: without [allowTags], [escapeHTML] returns for every value, and
    what it returns holds no angle bracket, double quote or apostrophe. *)
Theorem escapeHTML_full_output_has_no_markup (v : JS.JSValue) :
  exists out,
    Target.escapeHTML v false = Ret out
    /\ Str.all (fun c => negb (is_special c)) out = true.
Proof.
  exists (escaped v). split; [apply escapeHTML_full|apply escaped_clean].
Qed.

Lemma concat_empty {A} (l : list A) :
  String.concat "" (map (fun _ => "") l) = "".
Proof.
  induction l as [|x l IH]; [reflexivity|].
  cbn [map String.concat]. destruct (map (fun _ : A => "") l); [reflexivity|].
  cbn. exact IH.
Qed.

Lemma rewrite_tag_bare (m : Regex.TagMatch) :
  Target.allowed (Regex.tagName m) = Target.Listed [] ->
  Target.rewrite_tag m = Ret (Target.open_tag m "").
Proof.
  intros H. unfold Target.rewrite_tag. rewrite H.
  replace (map (Target.safe_attr [])
             (Regex.exec_all Regex.match_attr (Regex.attrs m)))
    with (map (fun _ : string * string => "")
             (Regex.exec_all Regex.match_attr (Regex.attrs m)))
    by reflexivity.
  rewrite concat_empty. reflexivity.
Qed.

Lemma escapeHTML_at_tag (s : string) (m : Regex.TagMatch) (len : nat) :
  Regex.match_tag s = Some (m, len) ->
  Target.escapeHTML (JS.JStr s) true
  = obind (Target.rewrite_tag m) (fun out =>
    obind (Target.escapeHTML (JS.JStr (Str.drop len s)) true)
          (fun rest => Ret (out ++ rest))).
Proof.
  intros H. rewrite !escapeHTML_allowTags_unfold.
  pose proof (match_tag_length s m len H) as Hlen.
  rewrite (replace_match _ _ s m len H) by (intros ->; discriminate).
  replace (Nat.max 1 len) with len by lia. reflexivity.
Qed.

(** X6: a tag whose entry in the list of allowed tags is empty comes out
    bare: every attribute it had is dropped. *)
Theorem escapeHTML_drops_attributes (s : string) (m : Regex.TagMatch)
    (len : nat) :
  Regex.match_tag s = Some (m, len) ->
  Target.allowed (Regex.tagName m) = Target.Listed [] ->
  Target.escapeHTML (JS.JStr s) true
  = omap (append (Target.open_tag m ""))
         (Target.escapeHTML (JS.JStr (Str.drop len s)) true).
Proof.
  intros Hm Ha. rewrite (escapeHTML_at_tag s m len Hm).
  rewrite (rewrite_tag_bare m Ha). reflexivity.
Qed.

Lemma escapeHTML_drops_attributes_witness :
  Regex.match_tag onclick_sample
  = Some (Regex.mkTag ("<p onclick=" ++ Str.DQ ++ "evil()" ++ Str.DQ ++ ">")
            false "p" (" onclick=" ++ Str.DQ ++ "evil()" ++ Str.DQ), 20)
  /\ Target.allowed "p" = Target.Listed []
  /\ Target.escapeHTML (JS.JStr onclick_sample) true = Ret "<p>hi".
Proof.
  split; [reflexivity|]. split; [reflexivity|].
  rewrite (escapeHTML_drops_attributes onclick_sample _ 20 eq_refl eq_refl).
  reflexivity.
Defined.

(** X7: a tag named like a method of [Object.prototype] passes the test
    of the list, and with a quoted attribute the call of [includes] on
    that method throws. *)
Theorem escapeHTML_throws_on_inherited_tag (s : string) (m : Regex.TagMatch)
    (len : nat) :
  Regex.match_tag s = Some (m, len) ->
  Target.allowed (Regex.tagName m) = Target.Inherited ->
  Regex.exec_all Regex.match_attr (Regex.attrs m) <> [] ->
  Target.escapeHTML (JS.JStr s) true
  = Throw (TypeError "includes is not a function").
Proof.
  intros Hm Ha Hattr. rewrite (escapeHTML_at_tag s m len Hm).
  unfold Target.rewrite_tag. rewrite Ha.
  destruct (Regex.exec_all Regex.match_attr (Regex.attrs m));
    [contradiction|reflexivity].
Qed.

Lemma escapeHTML_throws_on_inherited_tag_witness :
  Regex.match_tag inherited_sample
  = Some (Regex.mkTag ("<valueOf x=" ++ Str.DQ ++ "1" ++ Str.DQ ++ ">")
            false "valueOf" (" x=" ++ Str.DQ ++ "1" ++ Str.DQ), 15)
  /\ Target.allowed "valueOf" = Target.Inherited
  /\ Regex.exec_all Regex.match_attr (" x=" ++ Str.DQ ++ "1" ++ Str.DQ) <> []
  /\ Target.escapeHTML (JS.JStr inherited_sample) true
     = Throw (TypeError "includes is not a function").
Proof.
  split; [reflexivity|]. split; [reflexivity|]. split; [discriminate|].
  apply (escapeHTML_throws_on_inherited_tag inherited_sample _ 15 eq_refl
           eq_refl).
  discriminate.
Defined.

Lemma take_all (n : nat) (s : string) :
  String.length s <= n -> Str.take n s = s.
Proof.
  revert n; induction s as [|c s IH]; intros [|n] H; cbn in *; try reflexivity;
    try lia.
  rewrite IH by lia. reflexivity.
Qed.

Lemma drop_all (n : nat) (s : string) :
  String.length s <= n -> Str.drop n s = "".
Proof.
  revert n; induction s as [|c s IH]; intros [|n] H; cbn in *; try reflexivity;
    try lia.
  apply IH. lia.
Qed.

Lemma before_app (c : ascii) (a b : string) :
  Str.contains c a = false ->
  Regex.before c (a ++ b)
  = match Regex.before c b with Some r => Some (a ++ r) | None => None end.
Proof.
  induction a as [|d a IH]; intros H.
  - cbn. destruct (Regex.before c b); reflexivity.
  - apply contains_cons_false in H. destruct H as [Hd Ha].
    cbn [append Regex.before].
    destruct (Ascii.eqb_spec d c); [contradiction|].
    rewrite (IH Ha). destruct (Regex.before c b); reflexivity.
Qed.

Lemma exec_all_from_skip {M : Type} (matcher : string -> option (M * nat))
    (k : nat) (s : string) :
  Regex.exec_all_from matcher k s
  = Regex.exec_all_from matcher 0 (Str.drop k s).
Proof.
  revert k; induction s as [|c s IH]; intros [|k]; simpl; auto.
Qed.

Lemma escape_entities_plain (v : string) :
  Str.all (fun c => negb (is_entity c)) v = true ->
  Target.escape_entities v = v.
Proof.
  induction v as [|c v IH]; intros H; [reflexivity|].
  cbn [Str.all] in H. apply andb_true_iff in H. destruct H as [Hc Hv].
  rewrite escape_entities_cons, (IH Hv). unfold escaped_char.
  unfold is_entity in Hc. destruct (Regex.entity c); [discriminate|reflexivity].
Qed.

Lemma plain_lacks (c : ascii) (v : string) :
  is_entity c = true ->
  Str.all (fun d => negb (is_entity d)) v = true ->
  Str.contains c v = false.
Proof.
  intros Hc. induction v as [|d v IH]; intros H; [reflexivity|].
  cbn [Str.all] in H. apply andb_true_iff in H. destruct H as [Hd Hv].
  cbn [Str.contains]. rewrite (IH Hv), orb_false_r.
  destruct (Ascii.eqb_spec c d); [subst; rewrite Hc in Hd; discriminate|].
  reflexivity.
Qed.

Lemma append_empty_r (s : string) : s ++ "" = s.
Proof. induction s as [|c s IH]; cbn; [|rewrite IH]; reflexivity. Qed.

Lemma span_app (p : ascii -> bool) (a b : string) :
  Str.all p a = true -> head_not p b = true -> Str.span p (a ++ b) = (a, b).
Proof.
  intros Ha Hb. induction a as [|c a IH].
  - cbn. destruct b as [|d b]; [reflexivity|].
    cbn in *. destruct (p d); [discriminate|reflexivity].
  - cbn [Str.all] in Ha. apply andb_true_iff in Ha. destruct Ha as [Hc Ha].
    cbn [append Str.span]. rewrite Hc, (IH Ha). reflexivity.
Qed.

Lemma take_app (a b : string) (n : nat) :
  Str.take (String.length a + n) (a ++ b) = a ++ Str.take n b.
Proof.
  induction a as [|c a IH]; cbn; [reflexivity|]. rewrite IH. reflexivity.
Qed.

Lemma alpha_not_slash (c : ascii) (r : string) :
  Str.is_alpha c = true ->
  match String c r with
  | String "/" r' => (true, r')
  | _ => (false, String c r)
  end = (false, String c r).
Proof.
  destruct c as [[] [] [] [] [] [] [] []]; intros H; try reflexivity;
    discriminate.
Qed.

Lemma head_not_app (p : ascii -> bool) (a b : string) :
  head_not p a = true -> head_not p b = true -> head_not p (a ++ b) = true.
Proof. destruct a; cbn; auto. Qed.

(** [tagRegex] on an opening tag given by its parts. *)
Lemma match_tag_open (name attrs rest : string) :
  Str.all Str.is_alpha name = true -> name <> "" ->
  head_not Str.is_alpha attrs = true ->
  Str.contains ">" attrs = false ->
  Regex.match_tag (String "<" (name ++ attrs ++ String ">" rest))
  = Some (Regex.mkTag (String "<" (name ++ attrs ++ ">")) false name attrs,
          String.length name + String.length attrs + 2).
Proof.
  intros Hname Hne Hhead Hgt.
  destruct name as [|c name]; [contradiction|].
  assert (Hc : Str.is_alpha c = true).
  { cbn [Str.all] in Hname. apply andb_true_iff in Hname. tauto. }
  cbn [Regex.match_tag].
  change (String c name ++ attrs ++ String ">" rest)
    with (String c (name ++ attrs ++ String ">" rest)).
  cbv beta iota. rewrite (alpha_not_slash c _ Hc).
  change (String c (name ++ attrs ++ String ">" rest))
    with (String c name ++ (attrs ++ String ">" rest)).
  rewrite (span_app Str.is_alpha (String c name) (attrs ++ String ">" rest)
             Hname) by (apply head_not_app; [exact Hhead|reflexivity]).
  cbn [String.eqb].
  rewrite (before_app ">" attrs (String ">" rest) Hgt).
  cbn [Regex.before Ascii.eqb Bool.eqb andb].
  rewrite append_empty_r.
  replace (1 + 0 + String.length (String c name) + String.length attrs + 1)
    with (S (String.length (String c name) + (String.length attrs + 1)))
    by lia.
  cbn [Str.take].
  change (String c (name ++ attrs ++ String ">" rest))
    with (String c name ++ (attrs ++ String ">" rest)).
  rewrite !take_app. cbn [Str.take].
  change (String c name ++ attrs ++ ">") with (String c name ++ (attrs ++ ">")).
  do 2 f_equal. lia.
Qed.

(** [attrRegex] on an attribute given by its parts. *)
Lemma match_attr_quoted (name v rest : string) :
  Str.all Str.is_alpha name = true -> name <> "" ->
  Str.contains Str.dq v = false ->
  Regex.match_attr (name ++ String "=" (String Str.dq (v ++ String Str.dq rest)))
  = Some ((name, v), String.length name + 2 + String.length v + 1).
Proof.
  intros Hname Hne Hv. unfold Regex.match_attr.
  rewrite (span_app Str.is_alpha name _ Hname) by reflexivity.
  destruct name as [|c name]; [contradiction|].
  cbn [String.eqb]. rewrite Ascii.eqb_refl.
  rewrite (before_app Str.dq v (String Str.dq rest) Hv).
  cbn [Regex.before]. rewrite Ascii.eqb_refl.
  rewrite append_empty_r. reflexivity.
Qed.

Lemma exec_all_single_attr (name v : string) :
  Str.all Str.is_alpha name = true -> name <> "" ->
  Str.contains Str.dq v = false ->
  Regex.exec_all Regex.match_attr
    (String " " (name ++ String "=" (String Str.dq (v ++ String Str.dq ""))))
  = [(name, v)].
Proof.
  intros Hname Hne Hv. unfold Regex.exec_all.
  pose proof (match_attr_quoted name v "" Hname Hne Hv) as Hm.
  destruct name as [|c name]; [contradiction|].
  cbn [Regex.exec_all_from].
  change (Regex.match_attr (String " " ?x)) with (@None ((string * string) * nat)).
  cbv beta iota.
  change (String c name ++ ?x) with (String c (name ++ x)) in *.
  cbn [Regex.exec_all_from]. rewrite Hm.
  rewrite exec_all_from_skip, drop_all; [reflexivity|].
  rewrite append_length. cbn [String.length]. rewrite append_length.
  cbn [String.length]. lia.
Qed.

Lemma append_assoc (a b c : string) : (a ++ b) ++ c = a ++ (b ++ c).
Proof. induction a as [|x a IH]; cbn; [|rewrite IH]; reflexivity. Qed.

Lemma contains_app (c : ascii) (a b : string) :
  Str.contains c (a ++ b) = Str.contains c a || Str.contains c b.
Proof.
  induction a as [|d a IH]; cbn; [reflexivity|].
  rewrite IH, orb_assoc. reflexivity.
Qed.

(** X8: an attribute the list allows on [a] is kept with its value,
    whatever the value says, when the value holds none of the five
    characters that are escaped: no scheme of a link is looked at. *)
Theorem escapeHTML_keeps_anchor_attribute (name v rest : string) :
  In name ["href"; "title"] ->
  Str.all (fun c => negb (is_entity c)) v = true ->
  Target.escapeHTML (JS.JStr (anchor name v ++ rest)) true
  = omap (append (anchor name v)) (Target.escapeHTML (JS.JStr rest) true).
Proof.
  intros Hin Hv.
  assert (Hgt : Str.contains ">" v = false) by (apply plain_lacks; auto).
  assert (Hdq : Str.contains Str.dq v = false) by (apply plain_lacks; auto).
  assert (Hname : Str.all Str.is_alpha name = true /\ name <> ""
                  /\ Str.contains ">" name = false
                  /\ JS.mem name ["href"; "title"] = true).
  { destruct Hin as [<-|[<-|[]]]; repeat split; discriminate. }
  destruct Hname as (Ha & Hne & Hng & Hmem).
  set (attrs := String " " (name ++ String "=" (String Str.dq (v ++ String Str.dq "")))).
  assert (Hshape : anchor name v ++ rest
                   = String "<" ("a" ++ attrs ++ String ">" rest)).
  { unfold anchor, attrs, Str.DQ. cbn [append].
    repeat (rewrite !append_assoc; cbn [append]). reflexivity. }
  assert (Hshape' : anchor name v = String "<" ("a" ++ attrs ++ ">")).
  { unfold anchor, attrs, Str.DQ. cbn [append].
    repeat (rewrite !append_assoc; cbn [append]). reflexivity. }
  assert (Hattrs : Str.contains ">" attrs = false).
  { unfold attrs. cbn [Str.contains]. rewrite contains_app. rewrite Hng.
    cbn [Str.contains orb]. rewrite contains_app, Hgt. reflexivity. }
  pose proof (match_tag_open "a" attrs rest eq_refl ltac:(discriminate) eq_refl
                Hattrs) as Hm.
  rewrite Hshape, (escapeHTML_at_tag _ _ _ Hm).
  unfold Target.rewrite_tag. cbn [Regex.tagName Regex.attrs].
  change (Target.allowed "a") with (Target.Listed ["href"; "title"]).
  pose proof (exec_all_single_attr name v Ha Hne Hdq) as He.
  fold attrs in He. rewrite He.
  cbn [map String.concat]. unfold Target.safe_attr. cbn [fst snd].
  rewrite Hmem, (escape_entities_plain v Hv).
  replace (String.length "a" + String.length attrs + 2)
    with (String.length (String "<" ("a" ++ attrs ++ ">")) + 0).
  2:{ cbn [String.length append]. rewrite append_length. cbn. lia. }
  change (String "<" ("a" ++ attrs ++ String ">" rest))
    with (String "<" (String "a" (attrs ++ String ">" rest))).
  replace (String "<" (String "a" (attrs ++ String ">" rest)))
    with (String "<" ("a" ++ attrs ++ ">") ++ rest).
  2:{ cbn [append]. rewrite append_assoc. reflexivity. }
  rewrite drop_app. cbn [Str.drop obind].
  rewrite Hshape'.
  unfold Target.open_tag. cbn [Regex.closing Regex.tagName].
  replace ("<" ++ "" ++ "a" ++ (" " ++ name ++ "=" ++ Str.DQ ++ v ++ Str.DQ) ++ ">")
    with (String "<" ("a" ++ attrs ++ ">")).
  2:{ unfold attrs, Str.DQ. cbn [append].
      repeat (rewrite !append_assoc; cbn [append]). reflexivity. }
  destruct (Target.escapeHTML (JS.JStr rest) true); reflexivity.
Qed.

Lemma escapeHTML_keeps_anchor_attribute_witness :
  In "href" ["href"; "title"]
  /\ Str.all (fun c => negb (is_entity c)) "javascript:alert(1)" = true
  /\ Target.escapeHTML
       (JS.JStr (anchor "href" "javascript:alert(1)" ++ "x</a>")) true
     = omap (append (anchor "href" "javascript:alert(1)"))
            (Target.escapeHTML (JS.JStr "x</a>") true).
Proof.
  split; [left; reflexivity|]. split; [reflexivity|].
  apply (escapeHTML_keeps_anchor_attribute "href" "javascript:alert(1)" "x</a>");
    [left; reflexivity|reflexivity].
Defined.

(** ** Templates, further *)

Lemma replace_from_returns {M : Type} (matcher : string -> option (M * nat))
    (emit : M -> Outcome string) :
  (forall m, exists out, emit m = Ret out) ->
  forall s skip, exists out, Regex.replace_from matcher emit skip s = Ret out.
Proof.
  intros Hemit. induction s as [|c s IH]; intros skip.
  - exists "". reflexivity.
  - cbn [Regex.replace_from]. destruct skip as [|k]; [|apply IH].
    destruct (matcher (String c s)) as [[m len]|].
    + destruct (Hemit m) as [out Hout]. destruct (IH (len - 1)) as [rest Hrest].
      exists (out ++ rest). rewrite Hout, Hrest. reflexivity.
    + destruct (IH 0) as [rest Hrest]. exists (String c rest).
      rewrite Hrest. reflexivity.
Qed.

Lemma match_placeholder_needs_brace (c : ascii) (s : string) :
  c <> "{"%char -> Regex.match_placeholder (String c s) = None.
Proof.
  intros H. unfold Regex.match_placeholder.
  destruct c as [[] [] [] [] [] [] [] []]; try reflexivity.
  contradiction H. reflexivity.
Qed.

Lemma parseHTML_plain (text : string) (placeholders : JS.JSObject) :
  Str.contains "{" text = false ->
  Target.parseHTML text placeholders = Ret text.
Proof.
  induction text as [|c s IH]; intros H; [reflexivity|].
  apply contains_cons_false in H. destruct H as [Hc Hs].
  rewrite parseHTML_text by (apply match_placeholder_needs_brace; exact Hc).
  rewrite (IH Hs). reflexivity.
Qed.

(** X9: a template without a brace is returned as it is, whatever the
    placeholders hold. *)
Theorem parseHTML_without_brace (template : string)
    (placeholders : JS.JSObject) :
  Str.contains "{" template = false ->
  Target.parseHTML template placeholders = Ret template.
Proof. intros H. apply parseHTML_plain. exact H. Qed.

Lemma parseHTML_without_brace_witness :
  Str.contains "{" "<p>no token</p>" = false
  /\ Target.parseHTML "<p>no token</p>" JS.empty_object
     = Ret "<p>no token</p>".
Proof.
  split; [reflexivity|].
  apply (parseHTML_without_brace "<p>no token</p>" JS.empty_object).
  reflexivity.
Defined.

Lemma substitute_returns (placeholders : JS.JSObject) :
  (exists out,
     Target.escapeHTML (JS.get placeholders "content") true = Ret out) ->
  forall key, exists out, Target.substitute placeholders key = Ret out.
Proof.
  intros [out Hout] key. unfold Target.substitute.
  destruct (negb (String.eqb (JS.typeof (JS.get placeholders key)) "undefined"));
    [|eexists; reflexivity].
  destruct (String.eqb_spec key "content") as [->|_].
  - exists out. exact Hout.
  - exists (escaped (JS.get placeholders key)). apply escapeHTML_full.
Qed.

(** X10: [parseHTML] returns for every template as long as the value under
    [content] escapes without a throw. *)
Theorem parseHTML_returns (template : string) (placeholders : JS.JSObject) :
  (exists out,
     Target.escapeHTML (JS.get placeholders "content") true = Ret out) ->
  exists out, Target.parseHTML template placeholders = Ret out.
Proof.
  intros H. unfold Target.parseHTML, Regex.replace.
  apply replace_from_returns. apply substitute_returns. exact H.
Qed.

Lemma parseHTML_returns_witness :
  (exists out,
     Target.escapeHTML
       (JS.get (JS.literal [("content", JS.JStr "<b>x</b>")]) "content") true
     = Ret out)
  /\ exists out,
       Target.parseHTML "<div>{{content}}{{toString}}</div>"
         (JS.literal [("content", JS.JStr "<b>x</b>")]) = Ret out.
Proof.
  assert (H : exists out,
     Target.escapeHTML
       (JS.get (JS.literal [("content", JS.JStr "<b>x</b>")]) "content") true
     = Ret out) by (eexists; reflexivity).
  split; [exact H|].
  exact (parseHTML_returns "<div>{{content}}{{toString}}</div>" _ H).
Defined.

(** X11: the value of a key other than [content] is put in fully escaped,
    and the scan resumes behind the token, not in the value. *)
Theorem parseHTML_escapes_value (key rest : string)
    (placeholders : JS.JSObject) :
  Str.all Str.is_word key = true -> key <> "" -> key <> "content" ->
  JS.get placeholders key <> JS.JUndefined ->
  Target.parseHTML ("{{" ++ key ++ "}}" ++ rest) placeholders
  = omap (append (escaped (JS.get placeholders key)))
         (Target.parseHTML rest placeholders).
Proof.
  intros Hw Hne Hc Hdef. rewrite (parseHTML_token key rest placeholders Hw Hne).
  rewrite (substitute_defined placeholders key Hdef).
  destruct (String.eqb_spec key "content") as [E|_]; [contradiction|].
  rewrite escapeHTML_full. cbn [obind].
  destruct (Target.parseHTML rest placeholders); reflexivity.
Qed.

Lemma parseHTML_escapes_value_witness :
  Str.all Str.is_word "x" = true /\ "x" <> "" /\ "x" <> "content"
  /\ JS.get nested_tokens "x" <> JS.JUndefined
  /\ Target.parseHTML "{{x}}!" nested_tokens = Ret "{{y}}&lt;b&gt;!".
Proof.
  split; [reflexivity|]. split; [discriminate|]. split; [discriminate|].
  split; [discriminate|].
  change "{{x}}!" with ("{{" ++ "x" ++ "}}" ++ "!").
  rewrite (parseHTML_escapes_value "x" "!" nested_tokens eq_refl
             ltac:(discriminate) ltac:(discriminate) ltac:(discriminate)).
  reflexivity.
Defined.

(** ** Scoped class names *)

Lemma replace_pure_from_skip (matcher : string -> option (string * nat))
    (k : nat) (s : string) :
  Regex.replace_pure_from matcher k s
  = Regex.replace_pure_from matcher 0 (Str.drop k s).
Proof.
  revert k; induction s as [|c s IH]; intros [|k]; simpl; auto.
Qed.

Lemma replace_pure_no_match (matcher : string -> option (string * nat))
    (c : ascii) (s : string) :
  matcher (String c s) = None ->
  Regex.replace_pure matcher (String c s)
  = String c (Regex.replace_pure matcher s).
Proof.
  intros H. unfold Regex.replace_pure. simpl. rewrite H. reflexivity.
Qed.

Lemma replace_pure_match (matcher : string -> option (string * nat))
    (s out : string) (len : nat) :
  matcher s = Some (out, len) -> 1 <= len -> s <> "" ->
  Regex.replace_pure matcher s
  = out ++ Regex.replace_pure matcher (Str.drop len s).
Proof.
  intros H Hlen Hs. unfold Regex.replace_pure.
  destruct s as [|c s]; [contradiction|].
  simpl. rewrite H. rewrite replace_pure_from_skip.
  destruct len as [|len]; [lia|]. simpl. rewrite Nat.sub_0_r. reflexivity.
Qed.

Lemma split_plain (sep : ascii) (s : string) :
  Str.contains sep s = false -> Str.split sep s = [s].
Proof.
  induction s as [|c s IH]; intros H; [reflexivity|].
  apply contains_cons_false in H. destruct H as [Hc Hs].
  cbn [Str.split]. destruct (Ascii.eqb_spec c sep); [contradiction|].
  rewrite (IH Hs). reflexivity.
Qed.

Lemma suffixed_plain (suffix names : string) :
  Str.contains " " names = false ->
  Target.suffixed suffix names = class_attr (names ++ "-" ++ suffix).
Proof.
  intros H. unfold Target.suffixed. rewrite (split_plain " " names H).
  reflexivity.
Qed.

Lemma match_class_attr (names rest : string) :
  Str.contains Str.dq names = false ->
  Regex.match_class (class_attr names ++ rest)
  = Some (names, 7 + String.length names + 1).
Proof.
  intros H. unfold Regex.match_class, class_attr, Str.DQ.
  cbn [append Str.startsWith Ascii.eqb Bool.eqb andb Str.drop].
  rewrite append_assoc.
  rewrite (before_app Str.dq names _ H).
  cbn [append Regex.before]. rewrite Ascii.eqb_refl, append_empty_r.
  reflexivity.
Qed.

Lemma match_class_needs_c (c : ascii) (s : string) :
  c <> "c"%char -> Regex.match_class (String c s) = None.
Proof.
  intros H. unfold Regex.match_class, Str.DQ. cbn [append Str.startsWith].
  destruct (Ascii.eqb_spec "c" c) as [E|_]; [symmetry in E; contradiction|].
  reflexivity.
Qed.

Lemma scopeCSS_text (c : ascii) (s suffix : string) :
  Regex.match_class (String c s) = None ->
  Target.scopeCSS (String c s) suffix = String c (Target.scopeCSS s suffix).
Proof.
  intros H. unfold Target.scopeCSS. apply replace_pure_no_match.
  rewrite H. reflexivity.
Qed.

Lemma scopeCSS_attr (names rest suffix : string) :
  Str.contains Str.dq names = false ->
  Target.scopeCSS (class_attr names ++ rest) suffix
  = Target.suffixed suffix names ++ Target.scopeCSS rest suffix.
Proof.
  intros H. unfold Target.scopeCSS.
  rewrite (replace_pure_match _ (class_attr names ++ rest)
             (Target.suffixed suffix names) (7 + String.length names + 1)).
  - replace (7 + String.length names + 1)
      with (String.length (class_attr names) + 0).
    + rewrite drop_app. reflexivity.
    + unfold class_attr, Str.DQ. cbn [append String.length].
      rewrite append_length. cbn [String.length]. lia.
  - rewrite (match_class_attr names rest H). reflexivity.
  - lia.
  - unfold class_attr. discriminate.
Qed.

(** X12: every attribute whose text ends in [class=] and a quoted value is
    rewritten, each name of the value getting the suffix. *)
Theorem scopeCSS_rewrites_class_attribute
    (before names rest suffix : string) :
  Str.contains "c" before = false ->
  Str.contains Str.dq names = false ->
  Target.scopeCSS (before ++ class_attr names ++ rest) suffix
  = before ++ Target.suffixed suffix names ++ Target.scopeCSS rest suffix.
Proof.
  intros Hb Hn. induction before as [|c b IH].
  - apply scopeCSS_attr. exact Hn.
  - apply contains_cons_false in Hb. destruct Hb as [Hc Hb].
    cbn [append]. rewrite scopeCSS_text.
    + rewrite (IH Hb). reflexivity.
    + apply match_class_needs_c. intros ->. apply Hc. reflexivity.
Qed.

Lemma scopeCSS_rewrites_class_attribute_witness :
  Str.contains "c" "<i data-" = false
  /\ Str.contains Str.dq "a  b" = false
  /\ Target.scopeCSS ("<i data-" ++ class_attr "a  b" ++ ">") "h"
     = "<i data-" ++ class_attr "a-h -h b-h" ++ ">".
Proof.
  split; [reflexivity|]. split; [reflexivity|].
  rewrite (scopeCSS_rewrites_class_attribute "<i data-" "a  b" ">" "h"
             eq_refl eq_refl).
  reflexivity.
Defined.

(** X13: [scopeCSS] is not idempotent: applied again, it adds the suffix
    again. *)
Theorem scopeCSS_twice (names suffix : string) :
  Str.contains " " names = false -> Str.contains Str.dq names = false ->
  Str.contains " " suffix = false -> Str.contains Str.dq suffix = false ->
  Target.scopeCSS (Target.scopeCSS (class_attr names) suffix) suffix
  = class_attr (names ++ "-" ++ suffix ++ "-" ++ suffix).
Proof.
  intros Hs Hq Hs' Hq'.
  assert (Hone : forall n, Str.contains " " n = false ->
                 Str.contains Str.dq n = false ->
                 Target.scopeCSS (class_attr n) suffix
                 = class_attr (n ++ "-" ++ suffix)).
  { intros n H1 H2. rewrite <- (append_empty_r (class_attr n)).
    rewrite (scopeCSS_attr n "" suffix H2), (suffixed_plain suffix n H1).
    apply append_empty_r. }
  rewrite (Hone names Hs Hq), Hone.
  - rewrite !append_assoc. reflexivity.
  - rewrite !contains_app, Hs, Hs'. reflexivity.
  - rewrite !contains_app, Hq, Hq'. reflexivity.
Qed.

Lemma scopeCSS_twice_witness :
  Str.contains " " "box" = false /\ Str.contains Str.dq "box" = false
  /\ Str.contains " " "ab12" = false /\ Str.contains Str.dq "ab12" = false
  /\ Target.scopeCSS (Target.scopeCSS (class_attr "box") "ab12") "ab12"
     = class_attr "box-ab12-ab12".
Proof.
  repeat (split; [reflexivity|]).
  apply (scopeCSS_twice "box" "ab12"); reflexivity.
Defined.

(** ** Minified markup *)

Lemma all_rev_acc (p : ascii -> bool) (s acc : string) :
  Str.all p s = true -> Str.all p acc = true ->
  Str.all p (Str.rev_acc s acc) = true.
Proof.
  revert acc; induction s as [|c s IH]; intros acc Hs Ha; [exact Ha|].
  cbn [Str.all] in Hs. apply andb_true_iff in Hs. destruct Hs as [Hc Hs].
  cbn [Str.rev_acc]. apply IH; [exact Hs|]. cbn [Str.all]. rewrite Hc, Ha.
  reflexivity.
Qed.

Lemma all_dropWhile (p q : ascii -> bool) (s : string) :
  Str.all p s = true -> Str.all p (Str.dropWhile q s) = true.
Proof.
  induction s as [|c s IH]; intros H; [reflexivity|].
  cbn [Str.dropWhile]. destruct (q c); [|exact H].
  cbn [Str.all] in H. apply andb_true_iff in H. apply IH. tauto.
Qed.

Lemma all_trim (p : ascii -> bool) (s : string) :
  Str.all p s = true -> Str.all p (Str.trim s) = true.
Proof.
  intros H. unfold Str.trim, Str.rev.
  apply all_rev_acc; [|reflexivity]. apply all_dropWhile.
  apply all_rev_acc; [|reflexivity]. apply all_dropWhile. exact H.
Qed.

Lemma match_spaces_none (c : ascii) (s : string) :
  Target.match_spaces (String c s) = None -> Str.is_space c = false.
Proof.
  unfold Target.match_spaces. cbn [Str.span].
  destruct (Str.is_space c); [|reflexivity].
  destruct (Str.span Str.is_space s). discriminate.
Qed.

Lemma match_spaces_some (s out : string) (len : nat) :
  Target.match_spaces s = Some (out, len) -> out = " ".
Proof.
  unfold Target.match_spaces. destruct (Str.span Str.is_space s) as [run r].
  destruct (String.eqb run ""); [discriminate|]. congruence.
Qed.

Lemma collapsed_only_spaces (skip : nat) (s : string) :
  Str.all only_space
    (Regex.replace_pure_from Target.match_spaces skip s) = true.
Proof.
  revert skip; induction s as [|c s IH]; intros skip; [reflexivity|].
  cbn [Regex.replace_pure_from]. destruct skip as [|k]; [|apply IH].
  destruct (Target.match_spaces (String c s)) as [[out len]|] eqn:E.
  - apply match_spaces_some in E. subst out. cbn [append Str.all].
    rewrite IH. reflexivity.
  - apply match_spaces_none in E. cbn [Str.all]. rewrite IH.
    unfold only_space. rewrite E. reflexivity.
Qed.

(** X14: the only white space [minifyHTML] leaves is the space character:
    tabs, line ends and the like are gone. *)
Theorem minifyHTML_only_spaces (html : string) :
  Str.all only_space (Target.minifyHTML html) = true.
Proof.
  unfold Target.minifyHTML. apply all_trim. apply collapsed_only_spaces.
Qed.

(** ** Yielded elements *)

Lemma quotes_replaced (text : string) :
  Str.contains Str.dq
    (Regex.replace_pure (Regex.match_char Str.dq "&quot;") text) = false.
Proof.
  unfold Regex.replace_pure. induction text as [|c s IH]; [reflexivity|].
  cbn [Regex.replace_pure_from Regex.match_char].
  destruct (Ascii.eqb_spec c Str.dq) as [->|Hc].
  - cbn [Nat.sub]. rewrite contains_app, IH. reflexivity.
  - cbn [Str.contains]. rewrite IH, orb_false_r.
    destruct (Ascii.eqb_spec Str.dq c); [congruence|reflexivity].
Qed.

Lemma quotes_absent (text : string) :
  Str.contains Str.dq text = false ->
  Regex.replace_pure (Regex.match_char Str.dq "&quot;") text = text.
Proof.
  unfold Regex.replace_pure. induction text as [|c s IH]; intros H;
    [reflexivity|].
  apply contains_cons_false in H. destruct H as [Hc Hs].
  cbn [Regex.replace_pure_from Regex.match_char].
  destruct (Ascii.eqb_spec c Str.dq); [contradiction|].
  rewrite (IH Hs). reflexivity.
Qed.

(** X15: the text [yieldElementString] returns holds no double quote, and
    is the JSON text itself where that holds none. *)
Theorem yieldElementString_has_no_quote
    (JSON_stringify : JS.JSValue -> option string) (yieldElements : JS.JSValue)
    (text : string) :
  JSON_stringify yieldElements = Some text ->
  exists out,
    Target.yieldElementString JSON_stringify yieldElements = Ret out
    /\ Str.contains Str.dq out = false
    /\ (Str.contains Str.dq text = false -> out = text).
Proof.
  intros H. unfold Target.yieldElementString. rewrite H.
  eexists. split; [reflexivity|]. split; [apply quotes_replaced|].
  apply quotes_absent.
Qed.

Lemma yieldElementString_has_no_quote_witness :
  (fun _ : JS.JSValue => Some ("[" ++ Str.DQ ++ "a" ++ Str.DQ ++ "]"))
    (JS.JArr [JS.JStr "a"])
  = Some ("[" ++ Str.DQ ++ "a" ++ Str.DQ ++ "]")
  /\ exists out,
       Target.yieldElementString
         (fun _ => Some ("[" ++ Str.DQ ++ "a" ++ Str.DQ ++ "]"))
         (JS.JArr [JS.JStr "a"]) = Ret out
       /\ Str.contains Str.dq out = false
       /\ (Str.contains Str.dq ("[" ++ Str.DQ ++ "a" ++ Str.DQ ++ "]") = false
           -> out = "[" ++ Str.DQ ++ "a" ++ Str.DQ ++ "]").
Proof.
  split; [reflexivity|].
  exact (yieldElementString_has_no_quote
           (fun _ => Some ("[" ++ Str.DQ ++ "a" ++ Str.DQ ++ "]"))
           (JS.JArr [JS.JStr "a"]) _ eq_refl).
Defined.

(** ** The hash over a run of calls *)

Lemma keeps_hash_for_each {A} (l : list A) (f : A -> M Target.St unit) :
  (forall x, keeps_hash (f x)) -> keeps_hash (for_each l f).
Proof.
  intros Hf. induction l as [|x l IH]; cbn [for_each].
  - apply keeps_hash_ret.
  - apply keeps_hash_bind; [apply Hf|]. intros _. exact IH.
Qed.

(** One step of a proof that a call leaves [hash] as it is. *)
Ltac keeps_hash_step :=
  first
    [ apply keeps_hash_ret
    | apply keeps_hash_gets
    | apply keeps_hash_lift
    | apply keeps_hash_throw
    | apply keeps_hash_on_world
    | apply keeps_hash_with_styleManager
    | apply keeps_hash_on_this; reflexivity
    | apply keeps_hash_when
    | apply keeps_hash_for_each; intros ?
    | apply keeps_hash_bind; [|intros ?]
    | match goal with
      | H : forall v, keeps_hash (?f v) |- keeps_hash (?f _) => apply H
      | |- keeps_hash (if ?b then _ else _) => destruct b
      | |- keeps_hash (match ?x with _ => _ end) => destruct x
      end ].

Lemma FluidContainer_hash_respecting
    (JSON_parse : string -> Outcome JS.JSValue) :
  hash_respecting (FluidContainer.class JSON_parse).
Proof.
  intros setState Hset. cbn [FluidContainer.class Target.targetWillMount
    Target.targetDidMount Target.targetDidUpdate Target.render].
  unfold FluidContainer.targetWillMount, FluidContainer.targetDidMount,
    FluidContainer.render, FluidContainer.inject_link, FluidContainer.api_get,
    FluidContainer.setTitle, FluidContainer.prop, FluidContainer.state_of,
    Target.this.
  repeat split; repeat keeps_hash_step.
Qed.

Lemma Error_hash_respecting (JSON_parse : string -> Outcome JS.JSValue) :
  hash_respecting (Error.class JSON_parse).
Proof.
  intros setState Hset. cbn [Error.class Target.targetWillMount
    Target.targetDidMount Target.targetDidUpdate Target.render].
  unfold Error.targetWillMount, Error.render, Target.this.
  repeat split; repeat keeps_hash_step.
Qed.

Lemma keeps_hash_perform (fuel : nat) (c : Target.Class) (op : Op) :
  hash_respecting c -> keeps_hash (perform fuel c op).
Proof.
  intros Hc. destruct op as [|v| |]; cbn [perform];
    apply (hash_never_changes fuel c JS.JUndefined Hc)
    || apply (hash_never_changes fuel c v Hc).
Qed.

(** X16: whatever calls are made on an instance, in whatever order and
    whether they return or throw, [getHash()] gives what the constructor
    drew. *)
Theorem hash_is_stable (fuel : nat) (c : Target.Class) (ops : list Op)
    (s : Target.St) :
  hash_respecting c ->
  Target.getHash (perform_all fuel c ops s)
  = (Ret (Target.hash (snd s)), perform_all fuel c ops s).
Proof.
  intros Hc. unfold Target.getHash, gets. f_equal. f_equal.
  revert s. induction ops as [|op ops IH]; intros s; [reflexivity|].
  unfold perform_all in *. cbn [fold_left]. rewrite IH.
  apply keeps_hash_perform. exact Hc.
Qed.

Lemma hash_is_stable_witness :
  hash_respecting (FluidContainer.class (fun _ => Throw (SyntaxError "JSON")))
  /\ fst (Target.getHash
            (perform_all 3 (FluidContainer.class
                              (fun _ => Throw (SyntaxError "JSON")))
               [OpUpdate; OpSetState Sample.patch; OpDestroy; OpUnmount]
               (Sample.page, Sample.fluid)))
     = Ret "00cs00cs".
Proof.
  split; [apply FluidContainer_hash_respecting|].
  rewrite (hash_is_stable 3 _ _ (Sample.page, Sample.fluid)
             (FluidContainer_hash_respecting _)).
  reflexivity.
Defined.

(** ** Mounting, further *)

(** X17: of two [update()] calls on a fresh instance of a quiet class, the
    first enters the mount hooks around its write and the second enters
    none. *)
Theorem update_twice_mounts_once (fuel : nat) (c : Target.Class)
    (s : Target.St) (el : nat) :
  quiet_class c ->
  Target.container (snd s) = Some el -> Target.isMounted (snd s) = false ->
  exists first second s1 s2,
    Target.update (S fuel) c s = (Ret tt, s1)
    /\ Target.update (S fuel) c s1 = (Ret tt, s2)
    /\ Target.calls (snd s2)
       = (Target.calls (snd s)
          ++ [ Target.WillMount; Target.Wrote el first; Target.DidMount;
               Target.DidUpdate; Target.Wrote el second;
               Target.DidUpdate ])%list.
Proof.
  intros Hq Hc Hm.
  destruct (update_mounts fuel c s el Hq Hc Hm)
    as (first & s1 & E1 & L1 & M1 & C1).
  destruct (update_keeps_mounted fuel c s1 el Hq C1 M1)
    as (second & s2 & E2 & L2 & _ & _).
  exists first, second, s1, s2. split; [exact E1|]. split; [exact E2|].
  rewrite L2, L1, <- app_assoc. reflexivity.
Qed.

Lemma update_twice_mounts_once_witness :
  quiet_class Target.Base
  /\ Target.container (snd (Sample.page, Sample.target)) = Some 0
  /\ Target.isMounted (snd (Sample.page, Sample.target)) = false
  /\ exists first second s1 s2,
       Target.update 1 Target.Base (Sample.page, Sample.target) = (Ret tt, s1)
       /\ Target.update 1 Target.Base s1 = (Ret tt, s2)
       /\ Target.calls (snd s2)
          = (Target.calls (snd (Sample.page, Sample.target))
             ++ [ Target.WillMount; Target.Wrote 0 first; Target.DidMount;
                  Target.DidUpdate; Target.Wrote 0 second;
                  Target.DidUpdate ])%list.
Proof.
  split; [exact Base_quiet|]. split; [reflexivity|]. split; [reflexivity|].
  exact (update_twice_mounts_once 0 Target.Base (Sample.page, Sample.target) 0
           Base_quiet eq_refl eq_refl).
Defined.

Lemma render_quiet (fuel : nat) (c : Target.Class) (el : nat)
    (s : Target.St) :
  quiet_class c ->
  exists markup s',
    render fuel c el s = (Ret tt, s')
    /\ Target.container (snd s') = Target.container (snd s)
    /\ Target.isMounted (snd s') = Target.isMounted (snd s)
    /\ Target.calls (snd s')
       = (Target.calls (snd s)
          ++ [Target.Wrote el markup; Target.DidMount])%list.
Proof.
  intros (_ & Hdid & _ & Hrender). unfold render.
  destruct (Hrender (Target.setState fuel c) s)
    as (markup & s1 & E1 & C1 & M1 & L1).
  rewrite (bind_ret _ _ s markup s1 E1).
  set (s2 := (DOM.write el markup (fst s1), snd s1)).
  rewrite (bind_ret _ _ s1 tt s2) by reflexivity.
  set (s3 := (fst s2, Target.record (Target.Wrote el markup) (snd s2))).
  rewrite (bind_ret _ _ s2 tt s3) by reflexivity.
  set (s4 := (fst s3, Target.record Target.DidMount (snd s3))).
  rewrite (bind_ret _ _ s3 tt s4) by reflexivity.
  destruct (Hdid (Target.setState fuel c) s4)
    as ([] & s5 & E5 & C5 & M5 & L5).
  exists markup, s5. split; [exact E5|].
  cbn in C5, M5, L5. rewrite C5, M5, L5, C1, M1, L1, <- app_assoc.
  repeat split.
Qed.

(** X18: the exported [render] enters [targetDidMount] and leaves
    [isMounted] false, so the first [update()] after it mounts once
    more. *)
Theorem render_then_update_mounts_again (fuel : nat) (c : Target.Class)
    (s : Target.St) (el : nat) :
  quiet_class c ->
  Target.container (snd s) = Some el -> Target.isMounted (snd s) = false ->
  exists first second s1 s2,
    render fuel c el s = (Ret tt, s1)
    /\ Target.isMounted (snd s1) = false
    /\ Target.update (S fuel) c s1 = (Ret tt, s2)
    /\ Target.calls (snd s2)
       = (Target.calls (snd s)
          ++ [ Target.Wrote el first; Target.DidMount; Target.WillMount;
               Target.Wrote el second; Target.DidMount;
               Target.DidUpdate ])%list.
Proof.
  intros Hq Hc Hm.
  destruct (render_quiet fuel c el s Hq) as (first & s1 & E1 & C1 & M1 & L1).
  rewrite Hc in C1. rewrite Hm in M1.
  destruct (update_mounts fuel c s1 el Hq C1 M1)
    as (second & s2 & E2 & L2 & _ & _).
  exists first, second, s1, s2.
  split; [exact E1|]. split; [exact M1|]. split; [exact E2|].
  rewrite L2, L1, <- app_assoc. reflexivity.
Qed.

Lemma render_then_update_mounts_again_witness :
  quiet_class Target.Base
  /\ Target.container (snd (Sample.page, Sample.target)) = Some 0
  /\ Target.isMounted (snd (Sample.page, Sample.target)) = false
  /\ exists first second s1 s2,
       render 0 Target.Base 0 (Sample.page, Sample.target) = (Ret tt, s1)
       /\ Target.isMounted (snd s1) = false
       /\ Target.update 1 Target.Base s1 = (Ret tt, s2)
       /\ Target.calls (snd s2)
          = (Target.calls (snd (Sample.page, Sample.target))
             ++ [ Target.Wrote 0 first; Target.DidMount; Target.WillMount;
                  Target.Wrote 0 second; Target.DidMount;
                  Target.DidUpdate ])%list.
Proof.
  split; [exact Base_quiet|]. split; [reflexivity|]. split; [reflexivity|].
  exact (render_then_update_mounts_again 0 Target.Base
           (Sample.page, Sample.target) 0 Base_quiet eq_refl eq_refl).
Defined.







(** ** Linked stylesheets and failed styles *)









(** X21: when the style map makes [addStyle] throw, the style element is
    already in the head, empty, and the key already registered; a later
    [addStyle] of the key, with whatever map, then does nothing. *)
Theorem addStyle_failure_leaves_element (key hash : string) (scoped : bool)
    (css : JS.JSValue) (s : StyleManager.St) (e : Exn) :
  JS.has key (StyleManager.styles (snd s)) = false ->
  DOM.querySelector "style" key (fst s) = Ret None ->
  StyleManager.cssString hash scoped css = Throw e ->
  StyleManager.addStyle key css hash scoped s
  = (Throw e, with_style key hash s)
  /\ forall css' hash' scoped',
       StyleManager.addStyle key css' hash' scoped' (with_style key hash s)
       = (Ret tt, with_style key hash s).
Proof.
  intros Hhas Q Hcss. split.
  - unfold StyleManager.addStyle, StyleManager.isStyleLoaded.
    unfold bind, StyleManager.self, StyleManager.world, gets,
      StyleManager.query, StyleManager.on_world, StyleManager.on_self,
      modify, lift_outcome, ret.
    rewrite Hhas, Q. cbn. rewrite Hcss. reflexivity.
  - intros css' hash' scoped'. apply addStyle_registered.
    cbn. apply has_define.
Qed.

Lemma addStyle_failure_leaves_element_witness :
  JS.has "app" (StyleManager.styles (snd (Sample.page, StyleManager.new)))
  = false
  /\ DOM.querySelector "style" "app" (fst (Sample.page, StyleManager.new))
     = Ret None
  /\ StyleManager.cssString "ab12" false broken_css
     = Throw (TypeError "replace is not a function")
  /\ StyleManager.addStyle "app" broken_css "ab12" false
       (Sample.page, StyleManager.new)
     = (Throw (TypeError "replace is not a function"),
        with_style "app" "ab12" (Sample.page, StyleManager.new))
  /\ forall css' hash' scoped',
       StyleManager.addStyle "app" css' hash' scoped'
         (with_style "app" "ab12" (Sample.page, StyleManager.new))
       = (Ret tt, with_style "app" "ab12" (Sample.page, StyleManager.new)).
Proof.
  split; [reflexivity|]. split; [reflexivity|]. split; [reflexivity|].
  exact (addStyle_failure_leaves_element "app" "ab12" false broken_css
           (Sample.page, StyleManager.new) _ eq_refl eq_refl eq_refl).
Defined.





(** ** The FluidContainer component *)

Lemma set_proto (o : JS.JSObject) (k : string) (v : JS.JSValue) :
  k <> "__proto__" -> JS.proto (JS.set o k v) = JS.proto o.
Proof.
  intros Hne. unfold JS.set.
  destruct (JS.has k (JS.own o)); [reflexivity|].
  destruct (String.eqb_spec k "__proto__"); [contradiction|reflexivity].
Qed.

Lemma get_set_same (o : JS.JSObject) (k : string) (v : JS.JSValue) :
  k <> "__proto__" -> JS.get (JS.set o k v) k = v.
Proof.
  intros Hne. unfold JS.get. rewrite (set_own_same o k v Hne). reflexivity.
Qed.

Lemma get_set_other (o : JS.JSObject) (k k' : string) (v : JS.JSValue) :
  k <> k' -> k' <> "__proto__" -> JS.get (JS.set o k' v) k = JS.get o k.
Proof.
  intros Hne Hp. unfold JS.get.
  rewrite (set_own_other o k k' v Hne), (set_proto o k' v Hp). reflexivity.
Qed.

Lemma render_scoped (JSON_parse : string -> Outcome JS.JSValue)
    (setState : JS.JSValue -> M Target.St unit) (s : Target.St)
    (html : string) :
  JS.truthy (JS.get (Target.state (snd s)) "loading") = false ->
  JS.truthy (JS.get (Target.state (snd s)) "error") = false ->
  JS.truthy (JS.get (Target.state (snd s)) "data") = false ->
  JS.truthy (JS.get (Target.props (snd s)) "scoped") = true ->
  JS.get (Target.props (snd s)) "html" = JS.JStr html ->
  FluidContainer.render JSON_parse setState s
  = (Target.parseHTML (Target.scopeCSS html (Target.hash (snd s)))
       JS.empty_object,
     (fst s,
      Target.set_props
        (JS.set (Target.props (snd s)) "html"
           (JS.JStr (Target.scopeCSS html (Target.hash (snd s)))))
        (snd s))).
Proof.
  intros Hl He Hd Hs Hh.
  unfold FluidContainer.render, FluidContainer.state_of, FluidContainer.prop,
    Target.this, Target.on_this.
  unfold bind, gets, modify, when, lift_outcome.
  cbn [fst snd]. rewrite Hl. cbn [fst snd]. rewrite He. cbn [fst snd].
  rewrite Hs. cbn [fst snd]. rewrite Hh.
  cbn [FluidContainer.as_string fst snd Target.set_props Target.state
       Target.props].
  rewrite Hd. cbn [fst snd Target.set_props Target.props].
  rewrite (get_set_same _ "html" _ ltac:(discriminate)).
  cbn [FluidContainer.as_string]. reflexivity.
Qed.

(** X23: with [scoped], [render] stores the scoped markup back into
    [props.html], so the next [render] scopes what is scoped already:
    each class name gets the hash once per render. *)
Theorem render_scopes_again (JSON_parse : string -> Outcome JS.JSValue)
    (setState : JS.JSValue -> M Target.St unit) (s : Target.St)
    (html : string) :
  JS.truthy (JS.get (Target.state (snd s)) "loading") = false ->
  JS.truthy (JS.get (Target.state (snd s)) "error") = false ->
  JS.truthy (JS.get (Target.state (snd s)) "data") = false ->
  JS.truthy (JS.get (Target.props (snd s)) "scoped") = true ->
  JS.get (Target.props (snd s)) "html" = JS.JStr html ->
  exists s1 s2,
    FluidContainer.render JSON_parse setState s
    = (Target.parseHTML (Target.scopeCSS html (Target.hash (snd s)))
         JS.empty_object, s1)
    /\ FluidContainer.render JSON_parse setState s1
       = (Target.parseHTML
            (Target.scopeCSS (Target.scopeCSS html (Target.hash (snd s)))
               (Target.hash (snd s)))
            JS.empty_object, s2).
Proof.
  intros Hl He Hd Hs Hh.
  eexists. eexists.
  split; [apply render_scoped; assumption|].
  rewrite (render_scoped JSON_parse setState _
             (Target.scopeCSS html (Target.hash (snd s)))); cbn [fst snd];
    try assumption.
  - reflexivity.
  - cbn [Target.set_props Target.props].
    rewrite get_set_other by discriminate. exact Hs.
  - cbn [Target.set_props Target.props].
    apply get_set_same. discriminate.
Qed.

Lemma render_scopes_again_witness :
  JS.truthy (JS.get (Target.state (snd (Sample.page, scoped_fluid))) "loading")
  = false
  /\ JS.truthy (JS.get (Target.state (snd (Sample.page, scoped_fluid))) "error")
     = false
  /\ JS.truthy (JS.get (Target.state (snd (Sample.page, scoped_fluid))) "data")
     = false
  /\ JS.truthy (JS.get (Target.props (snd (Sample.page, scoped_fluid))) "scoped")
     = true
  /\ JS.get (Target.props (snd (Sample.page, scoped_fluid))) "html"
     = JS.JStr ("<p " ++ class_attr "box" ++ ">")
  /\ exists s1 s2,
       FluidContainer.render (fun _ => Throw (SyntaxError "JSON"))
         (fun _ => ret tt) (Sample.page, scoped_fluid)
       = (Ret ("<p " ++ class_attr "box-00cs00cs" ++ ">"), s1)
       /\ FluidContainer.render (fun _ => Throw (SyntaxError "JSON"))
            (fun _ => ret tt) s1
          = (Ret ("<p " ++ class_attr "box-00cs00cs-00cs00cs" ++ ">"), s2).
Proof.
  repeat (split; [reflexivity|]).
  exact (render_scopes_again (fun _ => Throw (SyntaxError "JSON"))
           (fun _ => ret tt) (Sample.page, scoped_fluid)
           ("<p " ++ class_attr "box" ++ ">")
           eq_refl eq_refl eq_refl eq_refl eq_refl).
Defined.

(** X24: the message of a failed request goes into the markup as it is,
    between the apostrophes of [data-message], with nothing escaped. *)
Theorem render_error_is_raw (JSON_parse : string -> Outcome JS.JSValue)
    (setState : JS.JSValue -> M Target.St unit) (s : Target.St)
    (msg : string) :
  JS.truthy (JS.get (Target.state (snd s)) "loading") = false ->
  JS.get (Target.state (snd s)) "error" = JS.JStr msg ->
  msg <> "" -> Str.contains "{" msg = false ->
  FluidContainer.render JSON_parse setState s
  = (Ret (FluidContainer.error_markup msg), s).
Proof.
  intros Hl He Hne Hb.
  unfold FluidContainer.render, FluidContainer.state_of.
  unfold bind, gets, lift_outcome.
  cbn [fst snd]. rewrite Hl. cbn [fst snd]. rewrite He.
  cbn [JS.truthy FluidContainer.text_of].
  destruct (String.eqb_spec msg "") as [E|_]; [contradiction|].
  cbn [negb fst snd].
  rewrite parseHTML_plain; [reflexivity|].
  unfold FluidContainer.error_markup, FluidContainer.LF, Str.DQ.
  rewrite !contains_app, Hb. reflexivity.
Qed.

Lemma render_error_is_raw_witness :
  JS.truthy (JS.get (Target.state
                       (snd (Sample.page,
                             failed_fluid "'><img src=x onerror=alert(1)>")))
               "loading") = false
  /\ JS.get (Target.state
               (snd (Sample.page,
                     failed_fluid "'><img src=x onerror=alert(1)>")))
       "error" = JS.JStr "'><img src=x onerror=alert(1)>"
  /\ "'><img src=x onerror=alert(1)>" <> ""
  /\ Str.contains "{" "'><img src=x onerror=alert(1)>" = false
  /\ FluidContainer.render (fun _ => Throw (SyntaxError "JSON"))
       (fun _ => ret tt)
       (Sample.page, failed_fluid "'><img src=x onerror=alert(1)>")
     = (Ret (FluidContainer.error_markup "'><img src=x onerror=alert(1)>"),
        (Sample.page, failed_fluid "'><img src=x onerror=alert(1)>")).
Proof.
  split; [reflexivity|]. split; [reflexivity|]. split; [discriminate|].
  split; [reflexivity|].
  apply (render_error_is_raw (fun _ => Throw (SyntaxError "JSON"))
           (fun _ => ret tt)
           (Sample.page, failed_fluid "'><img src=x onerror=alert(1)>"));
    [reflexivity|reflexivity|discriminate|reflexivity].
Defined.

(** ** The Error component *)

(** X25: the Error component renders its title and its message fully
    escaped, when they are strings that [dataToObject] keeps as
    strings. *)
Theorem Error_render_escapes (JSON_parse : string -> Outcome JS.JSValue)
    (setState : JS.JSValue -> M Target.St unit) (s : Target.St)
    (title message : string) :
  JS.own (Target.props (snd s))
  = [("title", JS.JStr title); ("message", JS.JStr message)] ->
  Target.coerce JSON_parse title = JS.JStr title ->
  Target.coerce JSON_parse message = JS.JStr message ->
  Error.render JSON_parse setState s
  = (Ret (error_page (Target.escape_entities title)
            (Target.escape_entities message)), s).
Proof.
  intros Hp Ht Hm.
  unfold Error.render, Target.this, bind, gets, lift_outcome.
  cbn [fst snd]. rewrite Hp.
  cbn [FluidContainer.string_entries omap obind Target.dataToObject fold_left
       fst snd].
  rewrite Ht, Hm.
  reflexivity.
Qed.

Lemma Error_render_escapes_witness :
  JS.own (Target.props (snd (Sample.page, error_target "Oops" "<b>bad</b>")))
  = [("title", JS.JStr "Oops"); ("message", JS.JStr "<b>bad</b>")]
  /\ Target.coerce (fun _ => Throw (SyntaxError "JSON")) "Oops"
     = JS.JStr "Oops"
  /\ Target.coerce (fun _ => Throw (SyntaxError "JSON")) "<b>bad</b>"
     = JS.JStr "<b>bad</b>"
  /\ Error.render (fun _ => Throw (SyntaxError "JSON")) (fun _ => ret tt)
       (Sample.page, error_target "Oops" "<b>bad</b>")
     = (Ret (error_page "Oops" "&lt;b&gt;bad&lt;/b&gt;"),
        (Sample.page, error_target "Oops" "<b>bad</b>")).
Proof.
  split; [reflexivity|]. split; [reflexivity|]. split; [reflexivity|].
  exact (Error_render_escapes (fun _ => Throw (SyntaxError "JSON"))
           (fun _ => ret tt) (Sample.page, error_target "Oops" "<b>bad</b>")
           "Oops" "<b>bad</b>" eq_refl eq_refl eq_refl).
Defined.

(** ** The name of the container *)

(** X26: on the instance the constructor made, [getTargetName()] gives the
    name the constructor stored as [styleId]; once [destroy()] has
    returned it throws. *)
Theorem getTargetName_reads_container (r1 r2 : Target.Random)
    (props : JS.JSObject) (container : option nat) (w : DOM.World)
    (t : Target.Target) :
  Target.constructor r1 r2 props container w = Ret t ->
  Target.getTargetName (w, t) = (Ret (Target.styleId t), (w, t))
  /\ forall s', Target.destroy (w, t) = (Ret tt, s') ->
       exists e, Target.getTargetName s' = (Throw e, s').
Proof.
  intros H. unfold Target.constructor in H.
  destruct container as [el|]; [|discriminate].
  inversion H; subst; clear H. split; [reflexivity|].
  intros s' Hd. apply destroy_releases in Hd.
  unfold Target.getTargetName. rewrite Hd. eexists. reflexivity.
Qed.

Lemma getTargetName_reads_container_witness :
  Target.constructor Sample.half Sample.half JS.empty_object (Some 0)
    Sample.page = Ret Sample.target
  /\ Target.getTargetName (Sample.page, Sample.target)
     = (Ret (Some "app"), (Sample.page, Sample.target))
  /\ forall s', Target.destroy (Sample.page, Sample.target) = (Ret tt, s') ->
       exists e, Target.getTargetName s' = (Throw e, s').
Proof.
  split; [reflexivity|].
  exact (getTargetName_reads_container Sample.half Sample.half JS.empty_object
           (Some 0) Sample.page Sample.target eq_refl).
Defined.

(** ** The merge of setState *)

Lemma lookup_app {A} (k : string) (a b : list (string * A)) :
  JS.lookup k (a ++ b)%list
  = match JS.lookup k a with Some v => Some v | None => JS.lookup k b end.
Proof.
  induction a as [|[k' v'] a IH]; cbn; [reflexivity|].
  destruct (String.eqb k k'); [reflexivity|exact IH].
Qed.

Lemma lookup_absent {A} (k : string) (l : list (string * A)) :
  ~ In k (map fst l) -> JS.lookup k l = None.
Proof.
  induction l as [|[k' v'] l IH]; cbn; intros H; [reflexivity|].
  destruct (String.eqb_spec k k') as [->|_]; [exfalso; apply H; now left|].
  apply IH. intros Hin. apply H. now right.
Qed.

Lemma lookup_define_all {A} (k : string) (src dst : list (string * A)) :
  NoDup (map fst src) ->
  JS.lookup k (fold_left (fun acc kv => JS.define (fst kv) (snd kv) acc)
                 src dst)
  = match JS.lookup k src with Some v => Some v | None => JS.lookup k dst end.
Proof.
  revert dst. induction src as [|[k0 v0] src IH]; intros dst Hnd;
    [reflexivity|].
  cbn in Hnd. inversion Hnd as [|? ? Hnotin Hnd']; subst.
  cbn [fold_left fst snd JS.lookup]. rewrite (IH _ Hnd').
  destruct (String.eqb_spec k k0) as [->|Hne].
  - rewrite (lookup_absent k0 src Hnotin). apply lookup_define_same.
  - rewrite (lookup_define_other k k0 v0 dst Hne). reflexivity.
Qed.

(** X27: [setState] merges shallowly: afterwards the state holds under each
    key the value of the new state where that has the key, and the
    earlier value where it has not. *)
Theorem setState_merges (fuel : nat) (w : DOM.World) (t : Target.Target)
    (ps : JS.Props) (q : JS.Proto) (k : string) :
  NoDup (map fst ps) -> NoDup (map fst (JS.own (Target.state t))) ->
  exists s',
    Target.setState (S fuel) Target.Base (JS.JObj ps q) (w, t) = (Ret tt, s')
    /\ JS.lookup k (JS.own (Target.state (snd s')))
       = match JS.lookup k ps with
         | Some v => Some v
         | None => JS.lookup k (JS.own (Target.state t))
         end.
Proof.
  intros Hps Hst.
  assert (Hmerge : JS.lookup k (JS.own (Target.state
                     (Target.merge_state (JS.JObj ps q) t)))
                   = match JS.lookup k ps with
                     | Some v => Some v
                     | None => JS.lookup k (JS.own (Target.state t))
                     end).
  { unfold Target.merge_state, JS.spread2, JS.define_all.
    cbn [Target.set_state Target.state JS.literal JS.own JS.spreadable
         JS.JObject].
    rewrite (lookup_define_all k ps _ Hps).
    destruct (JS.lookup k ps); [reflexivity|].
    destruct (Target.state t) as [own proto].
    cbn [JS.JObject JS.spreadable JS.own] in *.
    rewrite (lookup_define_all k own [] Hst).
    destruct (JS.lookup k own); reflexivity. }
  unfold Target.setState.
  rewrite (bind_ret _ _ (w, t) tt (w, Target.merge_state (JS.JObj ps q) t))
    by reflexivity.
  destruct (Target.container (Target.merge_state (JS.JObj ps q) t))
    as [el|] eqn:Hc.
  - rewrite (Base_update fuel w _ el Hc). eexists. split; [reflexivity|].
    cbn [snd]. destruct (Target.isMounted _); exact Hmerge.
  - rewrite (update_without_container fuel Target.Base
               (w, Target.merge_state (JS.JObj ps q) t) Hc).
    eexists. split; [reflexivity|]. exact Hmerge.
Qed.

Lemma setState_merges_witness :
  NoDup (map fst [("loading", JS.JBool false)])
  /\ NoDup (map fst (JS.own (Target.state Sample.fluid)))
  /\ exists s',
       Target.setState 1 Target.Base
         (JS.JObj [("loading", JS.JBool false)] JS.ObjectPrototype)
         (Sample.page, Sample.fluid) = (Ret tt, s')
       /\ JS.lookup "fetched" (JS.own (Target.state (snd s')))
          = match JS.lookup "fetched" [("loading", JS.JBool false)] with
            | Some v => Some v
            | None => JS.lookup "fetched" (JS.own (Target.state Sample.fluid))
            end.
Proof.
  assert (H1 : NoDup (map fst [("loading", JS.JBool false)])).
  { repeat constructor. cbn. tauto. }
  assert (H2 : NoDup (map fst (JS.own (Target.state Sample.fluid)))).
  { cbn. repeat constructor; cbn; intuition discriminate. }
  split; [exact H1|]. split; [exact H2|].
  exact (setState_merges 0 Sample.page Sample.fluid
           [("loading", JS.JBool false)] JS.ObjectPrototype "fetched" H1 H2).
Defined.

(** ** Prefixed selectors *)

Lemma split_cons (sep : ascii) (a b : string) :
  Str.contains sep a = false ->
  Str.split sep (a ++ String sep b) = a :: Str.split sep b.
Proof.
  induction a as [|c a IH]; intros H.
  - cbn [append Str.split]. rewrite Ascii.eqb_refl. reflexivity.
  - apply contains_cons_false in H. destruct H as [Hc Ha].
    cbn [append Str.split]. destruct (Ascii.eqb_spec c sep); [contradiction|].
    rewrite (IH Ha). reflexivity.
Qed.

Lemma split_not_nil (sep : ascii) (s : string) : Str.split sep s <> [].
Proof.
  induction s as [|c s IH]; cbn; [discriminate|].
  destruct (Ascii.eqb c sep); [discriminate|].
  destruct (Str.split sep s); discriminate.
Qed.

(** X28: [prefixSelector] gives each part between commas, trimmed, the
    hash as a suffix, and joins the parts with a comma and a space. *)
Theorem prefixSelector_parts (first rest hash : string) :
  Str.contains "," first = false ->
  StyleManager.prefixSelector first hash = Str.trim first ++ "-" ++ hash
  /\ StyleManager.prefixSelector (first ++ String "," rest) hash
     = Str.trim first ++ "-" ++ hash ++ ", "
       ++ StyleManager.prefixSelector rest hash.
Proof.
  intros H. unfold StyleManager.prefixSelector. split.
  - rewrite (split_plain "," first H). reflexivity.
  - rewrite (split_cons "," first rest H). cbn [map Str.join].
    pose proof (split_not_nil "," rest) as Hne.
    destruct (Str.split "," rest) as [|w ws]; [contradiction|].
    cbn [map]. rewrite !append_assoc. reflexivity.
Qed.

Lemma prefixSelector_parts_witness :
  Str.contains "," ".box " = false
  /\ StyleManager.prefixSelector ".box " "ab12" = ".box-ab12"
  /\ StyleManager.prefixSelector (".box " ++ String "," " a:hover") "ab12"
     = ".box-ab12, a:hover-ab12".
Proof.
  split; [reflexivity|].
  exact (prefixSelector_parts ".box " " a:hover" "ab12" eq_refl).
Defined.

(** ** Instances of earlier statements *)


Lemma setState_keeps_mounted_witness :
  quiet_class Target.Base
  /\ Target.container
       (snd (snd (Target.update 1 Target.Base (Sample.page, Sample.target))))
     = Some 0
  /\ Target.isMounted
       (snd (snd (Target.update 1 Target.Base (Sample.page, Sample.target))))
     = true
  /\ exists markup s',
       Target.setState 1 Target.Base Sample.patch
         (snd (Target.update 1 Target.Base (Sample.page, Sample.target)))
       = (Ret tt, s')
       /\ Target.calls (snd s')
          = (Target.calls
               (snd (snd (Target.update 1 Target.Base
                            (Sample.page, Sample.target))))
             ++ [Target.Wrote 0 markup; Target.DidUpdate])%list
       /\ Target.isMounted (snd s') = true
       /\ Target.container (snd s') = Some 0.
Proof.
  split; [exact Base_quiet|]. split; [reflexivity|]. split; [reflexivity|].
  exact (setState_keeps_mounted 0 Target.Base Sample.patch
           (snd (Target.update 1 Target.Base (Sample.page, Sample.target))) 0
           Base_quiet eq_refl eq_refl).
Defined.
